(** * Market data fetch orchestration: adapter, cache, retry, fallback, batch

    A shallow embedding of [app/adapters/ccxt_adapter.py],
    [app/services/fetcher.py] and [app/services/cache.py].

    Coroutines become functions in a state-and-exception monad [M] over a
    [World] that holds the logical clock, the cache store and the trace of
    the effects performed on the outside world (sessions opened and closed,
    upstream calls, HTTP requests, sleeps).  What the outside world answers
    is read from an [Env] of oracles, indexed by the number of effects
    performed so far, so that two calls may be answered differently.

    The libraries the sources call are embedded by what they do at the call
    sites:
    - ccxt: an exchange answers [fetch_ticker], [fetch_ohlcv] and
      [fetch_order_book] with data or with an exception; closing a session
      does not fail;
    - pydantic: a model is built from JSON numbers and strings of the
      declared kinds; what its lax mode makes of other inputs is left open
      (see [as_float]); a request parameter or body that does not validate
      is refused before the route function runs;
    - httpx: [raise_for_status] raises [HTTPStatusError] for a status
      outside 2xx, [json()] raises [ValueError] on a body that is not JSON,
      a transport failure raises before there is a response;
    - tenacity: [retry] with [stop_after_attempt(n)] and no other argument
      retries on every exception and, when the attempts are exhausted,
      raises [RetryError] around the last failure;
    - asyncio: [gather] with [return_exceptions=True] gives one outcome per
      task, in order, and never raises;
    - the cache decorator is not defined in the sources and is modelled
      from the specification, with its serializer (see [cached]). *)

From Stdlib Require Import ZArith Floats Ascii String.
From stdpp Require Import gmap strings list pretty.

Set Warnings "-register-all,-inexact-float".
#[local] Open Scope Z_scope.

(** ** Python values *)

(** Parsed JSON and the dictionaries the upstream libraries hand back. *)
Inductive json :=
  | JNull
  | JBool (b : bool)
  | JInt (n : Z)
  | JFloat (x : float)
  | JStr (s : string)
  | JArr (items : list json)
  | JObj (fields : gmap string json).

(** Exceptions.  [HTTPException] and [RequestValidationError] are
    FastAPI's; [ValidationError] is pydantic's; [BadSymbol], [NetworkError]
    and [ExchangeError] are ccxt's (a subclass of [NetworkError] counts as
    [NetworkError]); [HTTPStatusError] and [TransportError] are httpx's;
    [RetryError] is tenacity's.  A detail written as an f-string that
    interpolates the caught exception is kept as [TextOf prefix e] rather
    than rendered. *)
Inductive exn :=
  | HTTPException (status_code : Z) (detail : message)
  | BadSymbol (msg : string)
  | NetworkError (msg : string)
  | ExchangeError (msg : string)
  | HTTPStatusError (status : Z) (text : string)
  | TransportError (msg : string)
  | KeyError (key : json)
  | IndexError
  | TypeError
  | AttributeError
  | ValueError (msg : string)
  | ValidationError (model : string)
  | RequestValidationError (loc : string)
  | RetryError (last_attempt : exn)
with message :=
  | Text (s : string)
  | TextOf (prefix : string) (e : exn).

Inductive result (A : Type) :=
  | Ok (a : A)
  | Raise (e : exn).
Arguments Ok {A} a.
Arguments Raise {A} e.

Definition is_ok {A} (r : result A) : bool :=
  match r with Ok _ => true | Raise _ => false end.

(** Python truthiness of the values tested in the sources. *)
Definition truthy (v : json) : bool :=
  match v with
  | JNull => false
  | JBool b => b
  | JInt n => negb (Z.eqb n 0)
  | JFloat x => negb (PrimFloat.eqb x PrimFloat.zero)
  | JStr s => negb (String.eqb s EmptyString)
  | JArr items => negb (Nat.eqb (length items) 0)
  | JObj fields => negb (Nat.eqb (size fields) 0)
  end.

(** [settings.COINMARKETCAP_KEY] is [str | None]: [None] and the empty
    string are falsy. *)
Definition key_configured (key : option string) : bool :=
  match key with
  | None => false
  | Some s => negb (String.eqb s EmptyString)
  end.

(** [s.split(sep)] for a one-character separator: never the empty list. *)
Fixpoint split (sep : Ascii.ascii) (s : string) : list string :=
  match s with
  | EmptyString => [EmptyString]
  | String c rest =>
      if Ascii.eqb c sep then EmptyString :: split sep rest
      else match split sep rest with
           | [] => [String c EmptyString]
           | piece :: pieces => String c piece :: pieces
           end
  end.

(** [xs[i]] on a list. *)
Definition list_getitem {A} (xs : list A) (i : nat) : result A :=
  match xs !! i with
  | Some x => Ok x
  | None => Raise IndexError
  end.

(** [v[k]] with a string key [k]. *)
Definition getitem (v : json) (k : string) : result json :=
  match v with
  | JObj fields =>
      match fields !! k with
      | Some x => Ok x
      | None => Raise (KeyError (JStr k))
      end
  | _ => Raise TypeError
  end.

(** [v[i]] with an integer index [i]. *)
Definition index (v : json) (i : nat) : result json :=
  match v with
  | JArr items => list_getitem items i
  | JStr s =>
      match String.get i s with
      | Some c => Ok (JStr (String c EmptyString))
      | None => Raise IndexError
      end
  | JObj _ => Raise (KeyError (JInt (Z.of_nat i)))
  | _ => Raise TypeError
  end.

(** [v.get(k, default)]. *)
Definition dict_get (v : json) (k : string) (dflt : json) : result json :=
  match v with
  | JObj fields => Ok (default dflt (fields !! k))
  | _ => Raise AttributeError
  end.

(** [int(s)] on a string, as CPython reads a decimal literal: the blanks
    around it are dropped, a sign may come first, the digits may be grouped
    by single underscores, and a literal of more than 4300 digits is
    refused (the interpreter's default limit on the conversion).  The
    characters of a string are code points below 256; in a string that is
    all ASCII the blanks are those of C's [isspace], in any other string
    those of [str.isspace]. *)
Definition digit_of (c : Ascii.ascii) : option Z :=
  let n := Z.of_nat (nat_of_ascii c) in
  if (48 <=? n) && (n <=? 57) then Some (n - 48) else None.

Definition is_ascii (s : string) : bool :=
  forallb (fun c => (nat_of_ascii c <? 128)%nat) (list_ascii_of_string s).

Definition is_space (unicode : bool) (c : Ascii.ascii) : bool :=
  let n := Z.of_nat (nat_of_ascii c) in
  ((9 <=? n) && (n <=? 13)) || Z.eqb n 32
  || (unicode && (((28 <=? n) && (n <=? 31)) || Z.eqb n 133 || Z.eqb n 160)).

Fixpoint lstrip (blank : Ascii.ascii → bool) (s : string) : string :=
  match s with
  | String c rest => if blank c then lstrip blank rest else s
  | EmptyString => EmptyString
  end.

Fixpoint rstrip (blank : Ascii.ascii → bool) (s : string) : string :=
  match s with
  | EmptyString => EmptyString
  | String c rest =>
      match rstrip blank rest with
      | EmptyString => if blank c then EmptyString else String c EmptyString
      | kept => String c kept
      end
  end.

(** The digits of a literal, with their count; [after_digit] tells whether
    the character before was a digit, which is what an underscore and the
    end of the literal require. *)
Fixpoint grouped_digits (acc : Z) (count : nat) (after_digit : bool)
    (s : string) : option (Z * nat) :=
  match s with
  | EmptyString => if after_digit then Some (acc, count) else None
  | String c rest =>
      match digit_of c with
      | Some d => grouped_digits (10 * acc + d) (S count) true rest
      | None =>
          if Ascii.eqb c "_" && after_digit
          then grouped_digits acc count false rest
          else None
      end
  end.

Definition int_max_str_digits : nat := 4300.

Definition py_int (s : string) : result Z :=
  let blank := is_space (negb (is_ascii s)) in
  let literal := rstrip blank (lstrip blank s) in
  let parsed :=
    match literal with
    | String "-" t => prod_map Z.opp id <$> grouped_digits 0 0 false t
    | String "+" t => grouped_digits 0 0 false t
    | _ => grouped_digits 0 0 false literal
    end in
  match parsed with
  | Some (n, count) =>
      if (count <=? int_max_str_digits)%nat then Ok n
      else
        Raise (ValueError
                 ("Exceeds the limit (4300 digits) for integer string conversion: value has "
                  +:+ pretty count
                  +:+ " digits; use sys.set_int_max_str_digits() to increase the limit"))
  | None =>
      Raise (ValueError ("invalid literal for int() with base 10: '" +:+ s +:+ "'"))
  end.

(** ** The world and the monad of coroutines *)

(** Effects on the outside world, in the order they happen.  A session is
    named by its [handle], the position of its opening in the trace. *)
Inductive Event :=
  | EvOpen (handle : nat) (exchange_id : string)
  | EvClose (handle : nat)
  | EvFetchTicker (handle : nat) (symbol : string)
  | EvFetchOHLCV (handle : nat) (symbol timeframe : string) (since limit : Z)
  | EvFetchOrderBook (handle : nat) (symbol : string) (limit : Z)
  | EvHttpGet (url api_key symbol_param : string)
  | EvSleep (seconds : Z).

Record World := {
  now : Z;
  store : gmap string (json * Z);
  trace : list Event;
}.

Definition M (A : Type) : Type := World → result A * World.

Definition ret {A} (a : A) : M A := fun w => (Ok a, w).

Definition raise {A} (e : exn) : M A := fun w => (Raise e, w).

Definition bind {A B} (m : M A) (k : A → M B) : M B :=
  fun w =>
    match m w with
    | (Ok a, w1) => k a w1
    | (Raise e, w1) => (Raise e, w1)
    end.

Notation "'let*' x := m 'in' k" := (bind m (fun x => k))
  (at level 10, x name, m at level 100, k at level 200).

Definition rbind {A B} (r : result A) (k : A → result B) : result B :=
  match r with
  | Ok a => k a
  | Raise e => Raise e
  end.

Notation "'let+' x := r 'in' k" := (rbind r (fun x => k))
  (at level 10, x name, r at level 100, k at level 200).

(** A list comprehension whose element expression may raise. *)
Fixpoint comprehension {A B} (f : A → result B) (xs : list A) : result (list B) :=
  match xs with
  | [] => Ok []
  | x :: rest =>
      let+ y := f x in
      let+ ys := comprehension f rest in
      Ok (y :: ys)
  end.

(** A pure computation that may raise. *)
Definition lift {A} (r : result A) : M A := fun w => (r, w).

(** [try: m except Exception as e: handler(e)]; a handler that does not
    match re-raises [e]. *)
Definition try_except {A} (m : M A) (handler : exn → M A) : M A :=
  fun w =>
    match m w with
    | (Ok a, w1) => (Ok a, w1)
    | (Raise e, w1) => handler e w1
    end.

(** [try: m finally: fin]: [fin] runs on every exit of [m]; an exception
    of [fin] replaces the outcome of [m]. *)
Definition try_finally {A} (m : M A) (fin : M unit) : M A :=
  fun w =>
    let (r, w1) := m w in
    match fin w1 with
    | (Ok _, w2) => (r, w2)
    | (Raise e, w2) => (Raise e, w2)
    end.

Definition emit (ev : Event) : M unit :=
  fun w => (Ok tt, {| now := now w; store := store w; trace := trace w ++ [ev] |}).

(** [asyncio.sleep(seconds)]. *)
Definition sleep (seconds : Z) : M unit :=
  fun w => (Ok tt, {| now := now w + seconds; store := store w;
                      trace := trace w ++ [EvSleep seconds] |}).

(** Time passing between two requests. *)
Definition advance (seconds : Z) (w : World) : World :=
  {| now := now w + seconds; store := store w; trace := trace w |}.

(** An HTTP response as the fallback reads it: the status, the body text,
    the body parsed as JSON ([None] when it is not JSON) and the [Date]
    header, when there is one. *)
Record Response := {
  status_code : Z;
  text : string;
  body : option json;
  date : option string;
}.

(** The outside world.  Each oracle receives the length of the trace at
    the moment of the call. *)
Record Env := {
  (** [ccxt.exchanges] *)
  exchanges : list string;
  (** [exchange.has["fetchOHLCV"]] *)
  has_fetchOHLCV : string → json;
  (** [exchange.fetch_ticker(symbol)] *)
  fetch_ticker : string → string → nat → result json;
  (** [exchange.fetch_ohlcv(symbol, timeframe, since, limit)] *)
  fetch_ohlcv : string → string → string → Z → Z → nat → result (list json);
  (** [exchange.fetch_order_book(symbol, limit)] *)
  fetch_order_book : string → string → Z → nat → result json;
  (** [client.get(url, headers, params)] *)
  http_get : string → string → string → nat → result Response;
  (** [settings.COINMARKETCAP_KEY] *)
  COINMARKETCAP_KEY : option string;
  (** pydantic, lax mode: what a field declared [float] makes of a string
      or a boolean *)
  lax_float : json → option float;
  (** pydantic, lax mode: what a field declared [int] makes of a string, a
      boolean or a float *)
  lax_int : json → option Z;
}.

(** Performing an upstream call: the event is recorded, the oracle
    answers. *)
Definition call {A} (ev : Event) (answer : nat → result A) : M A :=
  fun w =>
    (answer (length (trace w)),
     {| now := now w; store := store w; trace := trace w ++ [ev] |}).

(** ** Models ([app/models.py]) *)

Record Ticker := {
  symbol : string;
  last : float;
  bid : float;
  ask : float;
  high : float;
  low : float;
  volume : float;
  timestamp : Z;
}.

Record Ohlcv := {
  ohlcv_timestamp : Z;
  ohlcv_open : float;
  ohlcv_high : float;
  ohlcv_low : float;
  ohlcv_close : float;
  ohlcv_volume : float;
}.

Record OrderBook := {
  bids : list (float * float);
  asks : list (float * float);
  book_timestamp : Z;
  book_symbol : string;
}.

(** [float(n)] on an integer: the nearest double, ties to even; an integer
    too large for a double is refused ([OverflowError]). *)
Definition float_of_Z (n : Z) : option float :=
  let x := SF2Prim (binary_normalize prec emax n 0 false) in
  if PrimFloat.is_infinity x then None else Some x.

(** Field validation of the models.  A field declared [float] takes a JSON
    float as it is (infinities and NaN included) and an integer that
    [float] converts; a field declared [int] takes a JSON integer; a field
    declared [str] takes a JSON string.  What the lax mode makes of a
    string or a boolean given for a number, or of a float given for an
    integer, is read from [lax_float] and [lax_int].  Anything else is
    reported as a validation error. *)
Definition as_float (env : Env) (v : json) : option float :=
  match v with
  | JFloat x => Some x
  | JInt n => float_of_Z n
  | JBool _ | JStr _ => lax_float env v
  | JNull | JArr _ | JObj _ => None
  end.

Definition as_int (env : Env) (v : json) : option Z :=
  match v with
  | JInt n => Some n
  | JBool _ | JFloat _ | JStr _ => lax_int env v
  | JNull | JArr _ | JObj _ => None
  end.

Definition as_str (v : json) : option string :=
  match v with
  | JStr s => Some s
  | _ => None
  end.

Definition as_level (env : Env) (v : json) : option (float * float) :=
  match v with
  | JArr [p; q] =>
      match as_float env p, as_float env q with
      | Some price, Some size => Some (price, size)
      | _, _ => None
      end
  | _ => None
  end.

Definition as_levels (env : Env) (v : json) : option (list (float * float)) :=
  match v with
  | JArr items => mapM (as_level env) items
  | _ => None
  end.

Definition validated {A} (model : string) (o : option A) : result A :=
  match o with
  | Some a => Ok a
  | None => Raise (ValidationError model)
  end.

(** [Ticker(symbol=..., timestamp=..., last=..., ...)]. *)
Definition Ticker_init (env : Env)
    (symbol timestamp last bid ask high low volume : json) : result Ticker :=
  validated "Ticker"
    (s ← as_str symbol; ts ← as_int env timestamp; l ← as_float env last;
     b ← as_float env bid; a ← as_float env ask; h ← as_float env high;
     lo ← as_float env low; v ← as_float env volume;
     Some {| symbol := s; last := l; bid := b; ask := a; high := h;
             low := lo; volume := v; timestamp := ts |}).

(** [Ohlcv(timestamp=..., open=..., ...)]. *)
Definition Ohlcv_init (env : Env) (timestamp open high low close volume : json)
  : result Ohlcv :=
  validated "Ohlcv"
    (ts ← as_int env timestamp; o ← as_float env open; h ← as_float env high;
     l ← as_float env low; c ← as_float env close; v ← as_float env volume;
     Some {| ohlcv_timestamp := ts; ohlcv_open := o; ohlcv_high := h;
             ohlcv_low := l; ohlcv_close := c; ohlcv_volume := v |}).

(** [OrderBook(symbol=..., bids=..., asks=..., timestamp=...)]. *)
Definition OrderBook_init (env : Env) (symbol bids asks timestamp : json)
  : result OrderBook :=
  validated "OrderBook"
    (s ← as_str symbol; bs ← as_levels env bids; ps ← as_levels env asks;
     ts ← as_int env timestamp;
     Some {| bids := bs; asks := ps; book_timestamp := ts;
             book_symbol := s |}).

(** ** The provider adapter ([app/adapters/ccxt_adapter.py]) *)

Module CCXTAdapter.

(** An adapter instance: the exchange it wraps and its session. *)
Record t := { exchange_id : string; handle : nat }.

(** [CCXTAdapter(exchange_id)]. *)
Definition init (env : Env) (exchange_id : string) : M t :=
  if bool_decide (exchange_id ∈ exchanges env) then
    fun w =>
      let h := length (trace w) in
      (Ok {| exchange_id := exchange_id; handle := h |},
       {| now := now w; store := store w;
          trace := trace w ++ [EvOpen h exchange_id] |})
  else
    raise (HTTPException 404
             (Text ("Exchange '" +:+ exchange_id +:+ "' not found."))).

(** [await adapter.close()]. *)
Definition close (self : t) : M unit := emit (EvClose (handle self)).

(** [await adapter.get_ticker(symbol)]. *)
Definition get_ticker (env : Env) (self : t) (symbol : string) : M Ticker :=
  try_except
    (let* ticker_data :=
       call (EvFetchTicker (handle self) symbol)
            (fetch_ticker env (exchange_id self) symbol) in
     lift
       (let+ v_symbol := getitem ticker_data "symbol" in
        let+ v_timestamp := getitem ticker_data "timestamp" in
        let+ v_last := getitem ticker_data "last" in
        let+ v_bid := getitem ticker_data "bid" in
        let+ v_ask := getitem ticker_data "ask" in
        let+ v_high := getitem ticker_data "high" in
        let+ v_low := getitem ticker_data "low" in
        let+ v_volume := getitem ticker_data "vwap" in
        Ticker_init env v_symbol v_timestamp v_last v_bid v_ask v_high
                    v_low v_volume))
    (fun e =>
       match e with
       | BadSymbol _ =>
           raise (HTTPException 404
                    (Text ("Symbol '" +:+ symbol +:+ "' not found on "
                           +:+ exchange_id self)))
       | NetworkError _ =>
           raise (HTTPException 503
                    (Text ("Network error connecting to "
                           +:+ exchange_id self)))
       | _ =>
           raise (HTTPException 500
                    (TextOf "An unexpected error occurred: " e))
       end).

(** One element of the list comprehension of [get_historical_data]. *)
Definition ohlcv_of_item (env : Env) (item : json) : result Ohlcv :=
  let+ v_timestamp := index item 0 in
  let+ v_open := index item 1 in
  let+ v_high := index item 2 in
  let+ v_low := index item 3 in
  let+ v_close := index item 4 in
  let+ v_volume := index item 5 in
  Ohlcv_init env v_timestamp v_open v_high v_low v_close v_volume.

(** [await adapter.get_historical_data(symbol, timeframe, since, limit)]. *)
Definition get_historical_data (env : Env) (self : t)
    (symbol timeframe : string) (since limit : Z) : M (list Ohlcv) :=
  if negb (truthy (has_fetchOHLCV env (exchange_id self))) then
    raise (HTTPException 501
             (Text ("Exchange '" +:+ exchange_id self
                    +:+ "' does not support fetching OHLCV data.")))
  else
    try_except
      (let* ohlcv_data :=
         call (EvFetchOHLCV (handle self) symbol timeframe since limit)
              (fetch_ohlcv env (exchange_id self) symbol timeframe since
                           limit) in
       lift (comprehension (ohlcv_of_item env) ohlcv_data))
      (fun e =>
         raise (HTTPException 500
                  (TextOf "Failed to fetch historical data: " e))).

(** [await adapter.get_order_book(symbol, limit)]. *)
Definition get_order_book (env : Env) (self : t) (symbol : string)
    (limit : Z) : M OrderBook :=
  try_except
    (let* order_book_data :=
       call (EvFetchOrderBook (handle self) symbol limit)
            (fetch_order_book env (exchange_id self) symbol limit) in
     lift
       (let+ v_symbol := getitem order_book_data "symbol" in
        let+ v_bids := getitem order_book_data "bids" in
        let+ v_asks := getitem order_book_data "asks" in
        let+ v_timestamp := getitem order_book_data "timestamp" in
        OrderBook_init env v_symbol v_bids v_asks v_timestamp))
    (fun e =>
       raise (HTTPException 500 (TextOf "Failed to fetch order book: " e))).

(** [CCXTAdapter.get_all_exchanges()]. *)
Definition get_all_exchanges (env : Env) : list string := exchanges env.

End CCXTAdapter.

(** ** The retry policy (line 83 of [app/services/fetcher.py]) *)

(** [wait_exponential(multiplier, min, max)] of tenacity, in seconds, for
    the attempt that just failed: [multiplier * 2 ** (attempt_number - 1)]
    clamped to [[min, max]]. *)
Definition wait_exponential (multiplier min max : Z) (attempt_number : nat) : Z :=
  Z.max (Z.max 0 min) (Z.min (multiplier * 2 ^ (Z.of_nat attempt_number - 1)) max).

(** The attempts of a retried call from attempt [attempt_number] on, with
    [remaining] further attempts allowed.  A failed attempt is followed by
    a sleep and the next attempt; the failure of the last allowed attempt
    is wrapped in tenacity's [RetryError], as the decorator is not given
    [reraise=True]. *)
Fixpoint attempts {A} (wait : nat → Z) (remaining attempt_number : nat)
    (f : M A) : M A :=
  fun w =>
    match f w with
    | (Ok a, w1) => (Ok a, w1)
    | (Raise e, w1) =>
        match remaining with
        | O => (Raise (RetryError e), w1)
        | S r =>
            attempts wait r (S attempt_number) f
                     (snd (sleep (wait attempt_number) w1))
        end
    end.

(** [@retry(wait=wait, stop=stop_after_attempt(n))]: with no [retry=]
    argument every exception of the wrapped call is retried. *)
Definition retry {A} (wait : nat → Z) (stop_after_attempt : nat) (f : M A)
  : M A :=
  attempts wait (stop_after_attempt - 1)%nat 1%nat f.

(** ** The cache layer ([app/services/cache.py] and the decorator of
    [get_ticker]) *)

(** The [key_builder] of line 22:
    [f"ticker:{kwargs['exchange']}:{kwargs['symbol']}"]. *)
Definition key_builder (exchange symbol : string) : string :=
  "ticker:" +:+ exchange +:+ ":" +:+ symbol.

(** Modelled from the spec: the serializer of the cache, whose entries
    hold a serialized record (section 3); [app/services/cache.py]
    configures the JSON serializer.  A ticker is written as the JSON object
    of its eight fields, and read back by building a ticker from the fields
    of the object.  The JSON text itself is not modelled: a value and the
    text written for it are identified. *)
Definition Ticker_dumps (v : Ticker) : json :=
  JObj (list_to_map
          [("symbol", JStr (symbol v)); ("last", JFloat (last v));
           ("bid", JFloat (bid v)); ("ask", JFloat (ask v));
           ("high", JFloat (high v)); ("low", JFloat (low v));
           ("volume", JFloat (volume v)); ("timestamp", JInt (timestamp v))]).

Definition Ticker_loads (env : Env) (data : json) : result Ticker :=
  let+ v_symbol := getitem data "symbol" in
  let+ v_last := getitem data "last" in
  let+ v_bid := getitem data "bid" in
  let+ v_ask := getitem data "ask" in
  let+ v_high := getitem data "high" in
  let+ v_low := getitem data "low" in
  let+ v_volume := getitem data "volume" in
  let+ v_timestamp := getitem data "timestamp" in
  Ticker_init env v_symbol v_timestamp v_last v_bid v_ask v_high v_low
              v_volume.

(** What the cache serves under [key]: the record read back from an entry
    that has not expired. *)
Definition cache_get (env : Env) (w : World) (key : string) : option Ticker :=
  match store w !! key with
  | Some (data, expiry) =>
      if now w <? expiry then
        match Ticker_loads env data with
        | Ok v => Some v
        | Raise _ => None
        end
      else None
  | None => None
  end.

(** Modelled from the spec: the [cached] decorator of the cache object,
    which the repository's sources use but do not define.  It is the
    get-or-compute of section 4.2: on a hit within the TTL the stored value
    is returned and the compute function is not invoked; on a miss or after
    expiry the compute function is invoked and its result is stored,
    serialized, under the fingerprint with expiry [now + ttl] and returned.
    A compute function that raises stores nothing; an entry that cannot be
    read back counts as a miss. *)
Definition cached (env : Env) (ttl : Z) (key : string) (compute : M Ticker)
  : M Ticker :=
  fun w =>
    match cache_get env w key with
    | Some v => (Ok v, w)
    | None =>
        match compute w with
        | (Ok v, w1) =>
            (Ok v, {| now := now w1;
                      store := <[key := (Ticker_dumps v, now w1 + ttl)]> (store w1);
                      trace := trace w1 |})
        | (Raise e, w1) => (Raise e, w1)
        end
    end.

(** ** Concurrency ([asyncio]) *)

(** [asyncio.gather] of the tasks with [return_exceptions=True]: one outcome per
    task, in the order of the tasks, an exception being an outcome like
    any other.  The tasks are run here one after the other, in order. *)
Fixpoint gather {A} (tasks : list (M A)) : M (list (result A)) :=
  match tasks with
  | [] => ret []
  | task :: rest =>
      fun w =>
        let (r, w1) := task w in
        match gather rest w1 with
        | (Ok rs, w2) => (Ok (r :: rs), w2)
        | (Raise e, w2) => (Raise e, w2)
        end
  end.

(** ** The fetch orchestrator ([app/services/fetcher.py]) *)

Definition COINMARKETCAP_API_URL : string :=
  "https://pro-api.coinmarketcap.com/v1/cryptocurrency/quotes/latest".

(** [response.raise_for_status()]. *)
Definition raise_for_status (response : Response) : result unit :=
  if (200 <=? status_code response) && (status_code response <? 300)
  then Ok tt
  else Raise (HTTPStatusError (status_code response) (text response)).

(** [response.json()]. *)
Definition response_json (response : Response) : result json :=
  match body response with
  | Some data => Ok data
  | None => Raise (ValueError "Expecting value")
  end.

(** [httpx.Headers(response.headers).get("Date", "0")]. *)
Definition date_or_zero (response : Response) : string :=
  default "0" (date response).

(** The body of [_fetch_from_coinmarketcap] (lines 88 to 127): one
    attempt. *)
Definition _fetch_from_coinmarketcap_once (env : Env) (symbol : string)
  : M Ticker :=
  if negb (key_configured (COINMARKETCAP_KEY env)) then
    raise (HTTPException 501 (Text "CoinMarketCap API key not configured."))
  else
    let api_key := default "" (COINMARKETCAP_KEY env) in
    let* base := lift (list_getitem (split "/" symbol) 0) in
    try_except
      (let* response :=
         call (EvHttpGet COINMARKETCAP_API_URL api_key base)
              (http_get env COINMARKETCAP_API_URL api_key base) in
       lift
         (let+ _ := raise_for_status response in
          let+ data := response_json response in
          let+ by_base := getitem data "data" in
          let+ base_again := list_getitem (split "/" symbol) 0 in
          let+ entry := getitem by_base base_again in
          let+ by_quote := getitem entry "quote" in
          let+ quote_code := list_getitem (split "/" symbol) 1 in
          let+ quote := getitem by_quote quote_code in
          let+ v_timestamp := py_int (date_or_zero response) in
          let+ v_last := getitem quote "price" in
          let+ v_bid := dict_get quote "bid" (JInt 0) in
          let+ v_ask := dict_get quote "ask" (JInt 0) in
          let+ v_high := dict_get quote "high_24h" (JInt 0) in
          let+ v_low := dict_get quote "low_24h" (JInt 0) in
          let+ v_volume := getitem quote "volume_24h" in
          Ticker_init env (JStr symbol) (JInt v_timestamp) v_last v_bid
                      v_ask v_high v_low v_volume))
      (fun e =>
         match e with
         | HTTPStatusError status text =>
             raise (HTTPException status
                      (Text ("Error from CoinMarketCap: " +:+ text)))
         | KeyError _ | IndexError =>
             raise (HTTPException 404
                      (Text ("Could not parse CoinMarketCap response for '"
                             +:+ symbol +:+ "'.")))
         | _ => raise e
         end).

(** [_fetch_from_coinmarketcap] as decorated on line 83. *)
Definition _fetch_from_coinmarketcap (env : Env) (symbol : string) : M Ticker :=
  retry (wait_exponential 1 2 10) 3 (_fetch_from_coinmarketcap_once env symbol).

Module DataFetcher.

(** The body of [get_ticker] (lines 30 to 39), which the cache decorator
    wraps. *)
Definition get_ticker_uncached (env : Env) (exchange symbol : string)
  : M Ticker :=
  let* adapter := CCXTAdapter.init env exchange in
  try_finally
    (try_except
       (CCXTAdapter.get_ticker env adapter symbol)
       (fun e =>
          match e with
          | HTTPException status _ =>
              if (status =? 404) && key_configured (COINMARKETCAP_KEY env)
              then _fetch_from_coinmarketcap env symbol
              else raise e
          | _ => raise e
          end))
    (CCXTAdapter.close adapter).

(** [DataFetcher.get_ticker(exchange=..., symbol=...)], decorated with
    [cached(ttl=10, key_builder=...)]. *)
Definition get_ticker (env : Env) (exchange symbol : string) : M Ticker :=
  cached env 10 (key_builder exchange symbol)
         (get_ticker_uncached env exchange symbol).

(** [[res for res in results if isinstance(res, Ticker)]]. *)
Fixpoint successful_results {A} (results : list (result A)) : list A :=
  match results with
  | [] => []
  | Ok a :: rest => a :: successful_results rest
  | Raise _ :: rest => successful_results rest
  end.

(** [DataFetcher.get_batch_tickers(requests)]. *)
Definition get_batch_tickers (env : Env) (requests : list (string * string))
  : M (list Ticker) :=
  let tasks := map (fun req => get_ticker env (fst req) (snd req)) requests in
  let* results := gather tasks in
  ret (successful_results results).

(** [DataFetcher.get_historical_data(exchange, symbol, timeframe, since,
    limit)]. *)
Definition get_historical_data (env : Env) (exchange symbol timeframe : string)
    (since limit : Z) : M (list Ohlcv) :=
  let* adapter := CCXTAdapter.init env exchange in
  try_finally
    (CCXTAdapter.get_historical_data env adapter symbol timeframe since limit)
    (CCXTAdapter.close adapter).

(** [DataFetcher.get_order_book(exchange, symbol, limit)]. *)
Definition get_order_book (env : Env) (exchange symbol : string) (limit : Z)
  : M OrderBook :=
  let* adapter := CCXTAdapter.init env exchange in
  try_finally
    (CCXTAdapter.get_order_book env adapter symbol limit)
    (CCXTAdapter.close adapter).

(** [DataFetcher.get_all_exchanges()]. *)
Definition get_all_exchanges (env : Env) : list string :=
  CCXTAdapter.get_all_exchanges env.

End DataFetcher.

(** ** Vocabulary of the properties *)

(** The fingerprint format in the words of the specification (section 6):
    ["<operation>:<provider>:<symbol>"].  [key_builder], which is the
    source's, is compared with it below. *)
Definition fingerprint_format (operation provider symbol : string) : string :=
  operation +:+ ":" +:+ provider +:+ ":" +:+ symbol.

(** Whether the character [c] occurs in [s]. *)
Fixpoint occurs (c : Ascii.ascii) (s : string) : bool :=
  match s with
  | EmptyString => false
  | String c' rest => Ascii.eqb c' c || occurs c rest
  end.

(** Opening and closing a session. *)
Definition is_session_event (ev : Event) : bool :=
  match ev with
  | EvOpen _ _ | EvClose _ => true
  | _ => false
  end.

(** What the fallback does to the outside world: requests to the
    secondary provider and the sleeps between them. *)
Definition is_fallback_event (ev : Event) : bool :=
  match ev with
  | EvHttpGet _ _ _ | EvSleep _ => true
  | _ => false
  end.

(** The events of a fetch that opens the session [h] on [exchange]: the
    opening comes first, the closing of that very session comes last, and
    no session is opened or closed in between. *)
Definition one_session (h : nat) (exchange : string) (evs : list Event) : Prop :=
  ∃ middle,
    evs = EvOpen h exchange :: middle ++ [EvClose h]
    ∧ Forall (fun ev => is_session_event ev = false) middle.

(** Calls of the primary provider's ticker endpoint recorded in a trace. *)
Definition is_primary_call (ev : Event) : bool :=
  match ev with
  | EvFetchTicker _ _ => true
  | _ => false
  end.

Definition primary_calls (tr : list Event) : nat :=
  length (List.filter is_primary_call tr).

(** Requests sent to the secondary provider recorded in a trace. *)
Definition is_secondary_call (ev : Event) : bool :=
  match ev with
  | EvHttpGet _ _ _ => true
  | _ => false
  end.

Definition secondary_calls (tr : list Event) : nat :=
  length (List.filter is_secondary_call tr).

(** Failed outcomes of a batch. *)
Definition failures {A} (outcomes : list (result A)) : nat :=
  length (List.filter (fun r => negb (is_ok r)) outcomes).

(** The entry of the cache under [key] that can still be served. *)
Definition fresh_entry (env : Env) (w : World) (key : string) : option Ticker :=
  cache_get env w key.

(** The secondary provider answers the request that an attempt for
    [symbol] sends from the world [w]: a success response whose JSON body
    holds the quote object [quote] under the base and quote currency of
    [symbol], and whose timestamp placeholder converts to [ts]. *)
Definition secondary_answers (env : Env) (symbol : string) (w : World)
    (quote : gmap string json) (ts : Z) : Prop :=
  ∃ base quote_code rest response data by_base entry by_quote,
    split "/" symbol = base :: quote_code :: rest
    ∧ http_get env COINMARKETCAP_API_URL (default "" (COINMARKETCAP_KEY env))
               base (length (trace w)) = Ok response
    ∧ raise_for_status response = Ok tt
    ∧ body response = Some data
    ∧ getitem data "data" = Ok by_base
    ∧ getitem by_base base = Ok entry
    ∧ getitem entry "quote" = Ok by_quote
    ∧ getitem by_quote quote_code = Ok (JObj quote)
    ∧ py_int (date_or_zero response) = Ok ts.

(** The fields of a quote object: [price] and [volume_24h] are required,
    the four others are read with the default [0]. *)
Definition quote_fields (env : Env) (quote : gmap string json)
    (p b a h l v : float) : Prop :=
  (quote !! "price" ≫= as_float env) = Some p
  ∧ as_float env (default (JInt 0) (quote !! "bid")) = Some b
  ∧ as_float env (default (JInt 0) (quote !! "ask")) = Some a
  ∧ as_float env (default (JInt 0) (quote !! "high_24h")) = Some h
  ∧ as_float env (default (JInt 0) (quote !! "low_24h")) = Some l
  ∧ (quote !! "volume_24h" ≫= as_float env) = Some v.

(** The not-found classification. *)
Definition is_not_found (e : exn) : bool :=
  match e with
  | HTTPException status _ => status =? 404
  | _ => false
  end.

(** The world after [adapter.close()]. *)
Definition closed (self : CCXTAdapter.t) (w : World) : World :=
  snd (CCXTAdapter.close self w).

(** The world after a sleep. *)
Definition slept (seconds : Z) (w : World) : World := snd (sleep seconds w).

(** ** Scenarios *)

(** A world in which nothing has happened yet. *)
Definition w_init : World := {| now := 0; store := ∅; trace := [] |}.

(** What "demo-exchange" reports for "BTC/USDT". *)
Definition btc_ticker_data : json :=
  JObj (list_to_map
          [("symbol", JStr "BTC/USDT"); ("timestamp", JInt 1672531200000);
           ("last", JFloat 50000); ("bid", JFloat 49999);
           ("ask", JFloat 50001); ("high", JFloat 51000);
           ("low", JFloat 49000); ("vwap", JFloat 50500)]).

(** The secondary provider's payload for one base and quote currency. *)
Definition cmc_payload (base quote_code : string) (quote : list (string * json))
  : json :=
  JObj {[ "data" :=
    JObj {[ base :=
      JObj {[ "quote" := JObj {[ quote_code := JObj (list_to_map quote) ]} ]} ]} ]}.

(** A 200 response carrying [payload], with the given [Date] header. *)
Definition ok_response (payload : json) (date : option string) : Response :=
  {| status_code := 200; text := ""; body := Some payload; date := date |}.

(** An error response of the secondary provider. *)
Definition error_response (status : Z) (text : string) : Response :=
  {| status_code := status; text := text; body := None; date := None |}.

(** An environment with the single provider "demo-exchange", which knows
    "BTC/USDT" only, offers no OHLCV data and no order book, and with the
    given credential and secondary provider.  No scenario gives a string or
    a boolean for a number, so that the lax coercions are never consulted;
    they are set to refuse. *)
Definition demo_env (key : option string)
    (secondary : string → nat → result Response) : Env :=
  {| exchanges := ["demo-exchange"];
     has_fetchOHLCV := fun _ => JBool true;
     fetch_ticker := fun _ symbol _ =>
       if String.eqb symbol "BTC/USDT" then Ok btc_ticker_data
       else Raise (BadSymbol ("demo-exchange does not have market symbol "
                              +:+ symbol));
     fetch_ohlcv := fun _ symbol _ _ _ _ =>
       Raise (BadSymbol ("demo-exchange does not have market symbol "
                         +:+ symbol));
     fetch_order_book := fun _ _ _ _ => Raise (NetworkError "timed out");
     http_get := fun _ _ base i => secondary base i;
     COINMARKETCAP_KEY := key;
     lax_float := fun _ => None;
     lax_int := fun _ => None |}.

(** The secondary provider knows XRP in USD at 0.52, with a volume. *)
Definition xrp_quote : list (string * json) :=
  [("price", JFloat 0.52); ("volume_24h", JInt 1000)].

Definition xrp_secondary (base : string) (i : nat) : result Response :=
  Ok (ok_response (cmc_payload "XRP" "USD" xrp_quote) None).

(** The same data with nothing but the price. *)
Definition xrp_price_only (base : string) (i : nat) : result Response :=
  Ok (ok_response (cmc_payload "XRP" "USD" [("price", JFloat 0.52)]) None).

(** The same data in a response that carries an HTTP [Date] header. *)
Definition xrp_dated (base : string) (i : nat) : result Response :=
  Ok (ok_response (cmc_payload "XRP" "USD" xrp_quote)
                  (Some "Mon, 02 Jan 2023 00:00:00 GMT")).

(** A secondary provider that answers every request with a 500. *)
Definition failing_secondary (base : string) (i : nat) : result Response :=
  Ok (error_response 500 "upstream failure").

(** ** The routes ([app/api/endpoints.py]) and the exception handlers
    ([app/main.py]) *)

Module Endpoints.

(** [GET /exchanges]. *)
Definition get_exchanges (env : Env) : list string :=
  DataFetcher.get_all_exchanges env.

(** [GET /ticker/{exchange}/{symbol}]: both parameters are path segments
    declared [str]. *)
Definition get_ticker (env : Env) (exchange symbol : string) : M Ticker :=
  DataFetcher.get_ticker env exchange symbol.

(** One element of [requests: List[Tuple[str, str]]]. *)
Definition as_pair (v : json) : option (string * string) :=
  match v with
  | JArr [a; b] => exchange ← as_str a; symbol ← as_str b; Some (exchange, symbol)
  | _ => None
  end.

(** The body of [POST /batch] read as a [BatchTickerRequest]; [None] is a
    request with no body or with one that is not JSON. *)
Definition BatchTickerRequest_init (body : option json)
  : result (list (string * string)) :=
  match body with
  | Some (JObj fields) =>
      match fields !! "requests" with
      | Some (JArr items) =>
          match mapM as_pair items with
          | Some requests => Ok requests
          | None => Raise (RequestValidationError "body")
          end
      | _ => Raise (RequestValidationError "body")
      end
  | _ => Raise (RequestValidationError "body")
  end.

(** [POST /batch]. *)
Definition get_batch_tickers (env : Env) (body : option json) : M (list Ticker) :=
  let* requests := lift (BatchTickerRequest_init body) in
  DataFetcher.get_batch_tickers env requests.

(** [depth: int = Query(25, ..., le=100)] (line 82): the text of the query
    parameter, when it is given, has to validate as an integer that is at
    most 100. *)
Definition query_depth (env : Env) (depth : option string) : result Z :=
  match depth with
  | None => Ok 25
  | Some text =>
      match as_int env (JStr text) with
      | Some n =>
          if n <=? 100 then Ok n else Raise (RequestValidationError "depth")
      | None => Raise (RequestValidationError "depth")
      end
  end.

(** [GET /orderbook/{exchange}/{symbol}?depth=...]. *)
Definition get_order_book (env : Env) (exchange symbol : string)
    (depth : option string) : M OrderBook :=
  let* depth := lift (query_depth env depth) in
  DataFetcher.get_order_book env exchange symbol depth.

End Endpoints.

(** The status of the response to a request that ended with the exception
    [e]: an [HTTPException] is answered with its own status code and a
    [RequestValidationError] with 422 (FastAPI's handlers), any other
    exception with 500, by [validation_exception_handler] of [app/main.py],
    registered for [Exception]. *)
Definition error_status (e : exn) : Z :=
  match e with
  | HTTPException status _ => status
  | RequestValidationError _ => 422
  | _ => 500
  end.

(** ** More vocabulary *)

Definition is_open (ev : Event) : bool :=
  match ev with
  | EvOpen _ _ => true
  | _ => false
  end.

Definition is_close (ev : Event) : bool :=
  match ev with
  | EvClose _ => true
  | _ => false
  end.

(** Sessions opened and sessions closed in a trace. *)
Definition opens (tr : list Event) : nat := length (List.filter is_open tr).

Definition closes (tr : list Event) : nat := length (List.filter is_close tr).

(** ** More scenarios *)

(** Two candles, oldest first. *)
Definition two_candles : list json :=
  [JArr [JInt 1672531200000; JFloat 100; JFloat 110; JFloat 90; JFloat 105;
         JFloat 12];
   JArr [JInt 1672534800000; JFloat 105; JFloat 120; JFloat 100; JFloat 115;
         JInt 7]].

(** An order book with two levels on each side. *)
Definition two_level_book : json :=
  JObj (list_to_map
          [("symbol", JStr "BTC/USDT");
           ("bids", JArr [JArr [JFloat 49999; JFloat 1];
                          JArr [JFloat 49998; JFloat 2]]);
           ("asks", JArr [JArr [JFloat 50001; JFloat 3];
                          JArr [JFloat 50002; JFloat 4]]);
           ("timestamp", JInt 1672531200000)]).

(** What an exchange reports when it has no volume-weighted price. *)
Definition ticker_data_without_vwap : json :=
  JObj (list_to_map
          [("symbol", JStr "BTC/USDT"); ("timestamp", JInt 1672531200000);
           ("last", JFloat 50000); ("bid", JFloat 49999);
           ("ask", JFloat 50001); ("high", JFloat 51000);
           ("low", JFloat 49000); ("vwap", JNull);
           ("baseVolume", JFloat 1234)]).

(** The provider "full-exchange" answers every operation; its tickers
    carry no volume-weighted price. *)
Definition full_env : Env :=
  {| exchanges := ["full-exchange"];
     has_fetchOHLCV := fun _ => JBool true;
     fetch_ticker := fun _ _ _ => Ok ticker_data_without_vwap;
     fetch_ohlcv := fun _ _ _ _ _ _ => Ok two_candles;
     fetch_order_book := fun _ _ _ _ => Ok two_level_book;
     http_get := fun _ _ _ _ => Raise (TransportError "unreachable");
     COINMARKETCAP_KEY := Some "test_key";
     lax_float := fun _ => None;
     lax_int := fun _ => None |}.

(** * Properties *)

(** ** Strings *)

Lemma split_no_separator (sep : Ascii.ascii) (s : string) :
  occurs sep s = false → split sep s = [s].
Proof.
  induction s as [|c rest IH]; simpl; [reflexivity|].
  intros H. apply orb_false_iff in H as [Hc Hrest].
  rewrite Hc, (IH Hrest). reflexivity.
Qed.

Lemma append_nil (s : string) : "" +:+ s = s.
Proof. reflexivity. Qed.

Lemma append_cons (c : Ascii.ascii) (a b : string) :
  String c a +:+ b = String c (a +:+ b).
Proof. reflexivity. Qed.

Lemma append_cons_colon_inj (a b c d : string) :
  occurs ":" a = false → occurs ":" c = false →
  a +:+ String ":" b = c +:+ String ":" d → a = c ∧ b = d.
Proof.
  revert c. induction a as [|x a IH]; intros [|y c] Ha Hc Heq;
    rewrite ?append_nil, ?append_cons in Heq; simpl in Ha, Hc.
  - split; [reflexivity | congruence].
  - apply orb_false_iff in Hc as [Hy _].
    injection Heq as Hxy _. subst y. discriminate.
  - apply orb_false_iff in Ha as [Hx _].
    injection Heq as Hxy _. subst x. discriminate.
  - apply orb_false_iff in Ha as [_ Ha].
    apply orb_false_iff in Hc as [_ Hc].
    injection Heq as Hxy Heq. destruct (IH c Ha Hc Heq) as [-> ->].
    subst. split; reflexivity.
Qed.

(** ** The adapter *)

Lemma init_known env exchange w :
  exchange ∈ exchanges env →
  CCXTAdapter.init env exchange w =
    (Ok {| CCXTAdapter.exchange_id := exchange;
           CCXTAdapter.handle := length (trace w) |},
     {| now := now w; store := store w;
        trace := trace w ++ [EvOpen (length (trace w)) exchange] |}).
Proof.
  intros H. unfold CCXTAdapter.init. rewrite bool_decide_eq_true_2 by exact H.
  reflexivity.
Qed.

Lemma init_unknown env exchange w :
  exchange ∉ exchanges env →
  CCXTAdapter.init env exchange w =
    (Raise (HTTPException 404 (Text ("Exchange '" +:+ exchange +:+ "' not found."))),
     w).
Proof.
  intros H. unfold CCXTAdapter.init. rewrite bool_decide_eq_false_2 by exact H.
  reflexivity.
Qed.

(** The adapter's ticker call performs exactly one upstream call and
    changes nothing else. *)
Lemma adapter_get_ticker_world env self symbol w :
  snd (CCXTAdapter.get_ticker env self symbol w) =
    {| now := now w; store := store w;
       trace := trace w ++ [EvFetchTicker (CCXTAdapter.handle self) symbol] |}.
Proof.
  unfold CCXTAdapter.get_ticker, try_except, bind, call, lift.
  destruct (fetch_ticker env _ symbol _) as [data|e]; simpl.
  - match goal with |- context [rbind ?r ?k] => destruct (rbind r k) as [t|e] end;
      simpl; [reflexivity|]. destruct e; reflexivity.
  - destruct e; reflexivity.
Qed.

(** Its failures are classified: not found, unavailable or internal. *)
Lemma adapter_get_ticker_failure env self symbol w e :
  fst (CCXTAdapter.get_ticker env self symbol w) = Raise e →
  ∃ status detail, e = HTTPException status detail
                   ∧ (status = 404 ∨ status = 503 ∨ status = 500).
Proof.
  unfold CCXTAdapter.get_ticker, try_except, bind, call, lift.
  destruct (fetch_ticker env _ symbol _) as [data|e0]; simpl.
  - match goal with |- context [rbind ?r ?k] => destruct (rbind r k) as [t|e1] end;
      simpl; [discriminate|].
    destruct e1; simpl; intros [= <-]; eauto 6.
  - destruct e0; simpl; intros [= <-]; eauto 6.
Qed.

(** ** The fallback and its retries *)

Lemma split_nonempty (sep : Ascii.ascii) (s : string) :
  ∃ first rest, split sep s = first :: rest.
Proof.
  induction s as [|c s IH]; simpl; [eauto|].
  destruct (Ascii.eqb c sep); [eauto|].
  destruct IH as (first & rest & ->). eauto.
Qed.

(** One attempt sends at most one request and touches neither the clock
    nor the cache. *)
Lemma once_world env symbol w :
  ∃ evs,
    snd (_fetch_from_coinmarketcap_once env symbol w) =
      {| now := now w; store := store w; trace := trace w ++ evs |}
    ∧ Forall (fun ev => is_fallback_event ev = true) evs
    ∧ secondary_calls evs = (if key_configured (COINMARKETCAP_KEY env) then 1 else 0)%nat.
Proof.
  unfold _fetch_from_coinmarketcap_once.
  destruct (key_configured (COINMARKETCAP_KEY env)); simpl.
  - destruct (split_nonempty "/" symbol) as (first & rest & Hs).
    unfold bind, lift, try_except, call, list_getitem. rewrite Hs. simpl.
    exists [EvHttpGet COINMARKETCAP_API_URL
                      (default "" (COINMARKETCAP_KEY env)) first].
    split; [|split; [repeat constructor | reflexivity]].
    destruct (http_get env _ _ _ _) as [response|e]; simpl.
    + match goal with |- context [rbind ?r ?k] => destruct (rbind r k) as [t|e] end;
        simpl; [reflexivity|]. destruct e; reflexivity.
    + destruct e; reflexivity.
  - exists []. destruct w. simpl. rewrite app_nil_r. repeat split; constructor.
Qed.

Section Attempts.
Context {A : Type} (wait : nat → Z) (f : M A).
Hypothesis f_world :
  ∀ w, ∃ evs,
    store (snd (f w)) = store w ∧ trace (snd (f w)) = trace w ++ evs
    ∧ Forall (fun ev => is_fallback_event ev = true) evs.

(** Retrying a call that only talks to the secondary provider only talks
    to the secondary provider and sleeps. *)
Lemma attempts_world remaining n w :
  ∃ evs,
    store (snd (attempts wait remaining n f w)) = store w
    ∧ trace (snd (attempts wait remaining n f w)) = trace w ++ evs
    ∧ Forall (fun ev => is_fallback_event ev = true) evs.
Proof.
  revert n w. induction remaining as [|r IH]; intros n w; simpl;
    destruct (f_world w) as (evs & Hst & Htr & Hev);
    destruct (f w) as [[a|e] w1]; simpl in *; eauto.
  destruct (IH (S n) (snd (sleep (wait n) w1))) as (evs' & Hst' & Htr' & Hev').
  exists (evs ++ EvSleep (wait n) :: evs'). simpl in *.
  rewrite Hst', Htr', Hst, Htr, <- !app_assoc. repeat split.
  apply Forall_app; split; [exact Hev|]. constructor; [reflexivity | exact Hev'].
Qed.

Lemma attempts_step remaining n w :
  attempts wait (S remaining) n f w =
    match f w with
    | (Ok a, w1) => (Ok a, w1)
    | (Raise e, w1) => attempts wait remaining (S n) f (slept (wait n) w1)
    end.
Proof. reflexivity. Qed.

Lemma attempts_last n w :
  attempts wait 0 n f w =
    match f w with
    | (Ok a, w1) => (Ok a, w1)
    | (Raise e, w1) => (Raise (RetryError e), w1)
    end.
Proof. reflexivity. Qed.

(** A retried call never returns anything but what one of its attempts
    returned. *)
Lemma attempts_ok remaining n w a w' :
  attempts wait remaining n f w = (Ok a, w') → ∃ w0, f w0 = (Ok a, w').
Proof.
  revert n w. induction remaining as [|r IH]; intros n w; simpl;
    destruct (f w) as [[a0|e] w1] eqn:Hf; try discriminate;
    try (intros [= <- <-]; eauto).
  apply IH.
Qed.

End Attempts.

(** A call whose three attempts all fail is attempted exactly three times,
    two seconds apart, and ends in a [RetryError] that wraps the failure
    of the third attempt. *)
Lemma retry_exhausted {A} (f : M A) w e1 w1 e2 w2 e3 w3 :
  f w = (Raise e1, w1) →
  f (slept 2 w1) = (Raise e2, w2) →
  f (slept 2 w2) = (Raise e3, w3) →
  retry (wait_exponential 1 2 10) 3 f w = (Raise (RetryError e3), w3).
Proof.
  intros H1 H2 H3. unfold retry.
  change (3 - 1)%nat with 2%nat.
  rewrite !attempts_step, H1.
  change (wait_exponential 1 2 10 1) with 2.
  rewrite !attempts_step, H2.
  change (wait_exponential 1 2 10 2) with 2.
  rewrite attempts_last, H3. reflexivity.
Qed.

Lemma fallback_world env symbol w :
  ∃ evs,
    store (snd (_fetch_from_coinmarketcap env symbol w)) = store w
    ∧ trace (snd (_fetch_from_coinmarketcap env symbol w)) = trace w ++ evs
    ∧ Forall (fun ev => is_fallback_event ev = true) evs.
Proof.
  apply attempts_world. intros w0.
  destruct (once_world env symbol w0) as (evs & -> & Hev & _). eauto.
Qed.

Section AttemptCount.
Context {A : Type} (wait : nat → Z) (f : M A) (c : nat).
Hypothesis f_calls :
  ∀ w, secondary_calls (trace (snd (f w))) = (secondary_calls (trace w) + c)%nat.

(** A retried call allowed [S remaining] attempts makes between one and
    [S remaining] of them. *)
Lemma attempts_calls remaining n w :
  ∃ k, (1 ≤ k ≤ S remaining)%nat
       ∧ secondary_calls (trace (snd (attempts wait remaining n f w))) =
           (secondary_calls (trace w) + k * c)%nat.
Proof.
  revert n w. induction remaining as [|r IH]; intros n w;
    [rewrite attempts_last | rewrite attempts_step];
    pose proof (f_calls w) as Hf; destruct (f w) as [[a|e] w1];
    simpl in Hf |- *;
    try (exists 1%nat; split; [lia | rewrite Hf; lia]).
  destruct (IH (S n) (slept (wait n) w1)) as (k & Hk & Hcalls).
  exists (S k). split; [lia|]. rewrite Hcalls.
  unfold slept, secondary_calls in *. simpl.
  rewrite List.filter_app, length_app. simpl. rewrite Hf. lia.
Qed.

End AttemptCount.

(** With a credential, one run of the fallback sends at least one and at
    most three requests to the secondary provider. *)
Lemma fallback_requests env symbol w :
  key_configured (COINMARKETCAP_KEY env) = true →
  ∃ k, (1 ≤ k ≤ 3)%nat
       ∧ secondary_calls (trace (snd (_fetch_from_coinmarketcap env symbol w))) =
           (secondary_calls (trace w) + k)%nat.
Proof.
  intros Hkey.
  destruct (attempts_calls (wait_exponential 1 2 10)
              (_fetch_from_coinmarketcap_once env symbol) 1) with
    (remaining := 2%nat) (n := 1%nat) (w := w) as (k & Hk & Hcalls).
  - intros w0. destruct (once_world env symbol w0) as (evs & -> & _ & Hn).
    rewrite Hkey in Hn. simpl. unfold secondary_calls in *.
    rewrite List.filter_app, length_app, Hn. reflexivity.
  - exists k. split; [exact Hk|]. unfold _fetch_from_coinmarketcap, retry.
    change (3 - 1)%nat with 2%nat. rewrite Hcalls. lia.
Qed.

(** ** The fetch orchestrator *)

(** The three ways out of the body of [get_ticker] once the adapter is
    constructed. *)
Lemma get_ticker_uncached_unfold env exchange symbol w adapter w0 :
  CCXTAdapter.init env exchange w = (Ok adapter, w0) →
  DataFetcher.get_ticker_uncached env exchange symbol w =
    match CCXTAdapter.get_ticker env adapter symbol w0 with
    | (Ok t, w1) => (Ok t, closed adapter w1)
    | (Raise e, w1) =>
        if is_not_found e && key_configured (COINMARKETCAP_KEY env)
        then (fst (_fetch_from_coinmarketcap env symbol w1),
              closed adapter (snd (_fetch_from_coinmarketcap env symbol w1)))
        else (Raise e, closed adapter w1)
    end.
Proof.
  intros Hinit. unfold DataFetcher.get_ticker_uncached, bind.
  rewrite Hinit. unfold try_finally, try_except, closed.
  destruct (CCXTAdapter.get_ticker env adapter symbol w0) as [[t|e] w1];
    [reflexivity|].
  destruct e; simpl; try reflexivity.
  match goal with |- context [?s =? 404] => destruct (s =? 404) end;
    simpl; [|reflexivity].
  destruct (key_configured (COINMARKETCAP_KEY env)); simpl; [|reflexivity].
  destruct (_fetch_from_coinmarketcap env symbol w1); reflexivity.
Qed.

(** An unknown provider identifier is rejected by the constructor, before
    the [try] block: the error reaches the caller as it is, no session is
    opened and the fallback is not consulted. *)
Lemma unknown_exchange_no_fallback env exchange symbol w :
  exchange ∉ exchanges env →
  DataFetcher.get_ticker_uncached env exchange symbol w =
    (Raise (HTTPException 404 (Text ("Exchange '" +:+ exchange +:+ "' not found."))),
     w).
Proof.
  intros Hout. unfold DataFetcher.get_ticker_uncached, bind.
  rewrite (init_unknown env exchange w Hout). reflexivity.
Qed.

(** C2.  When the primary provider's ticker call fails with [e]: if [e] is
    a not-found error and a secondary credential is configured, the fetch
    is exactly one run of the fallback, started where the primary call left
    off and followed by the release of the adapter, and that run sends
    between one and three requests to the secondary provider (its
    retries); if no credential is configured, or [e] is of any other kind,
    [e] itself reaches the caller, and between the primary call and the
    release of the adapter nothing happens: no request is sent to the
    secondary provider. *)
Theorem fallback_gating env exchange symbol w adapter w0 e w1 :
  CCXTAdapter.init env exchange w = (Ok adapter, w0) →
  CCXTAdapter.get_ticker env adapter symbol w0 = (Raise e, w1) →
  if is_not_found e && key_configured (COINMARKETCAP_KEY env)
  then
    DataFetcher.get_ticker_uncached env exchange symbol w =
      (fst (_fetch_from_coinmarketcap env symbol w1),
       closed adapter (snd (_fetch_from_coinmarketcap env symbol w1)))
    ∧ ∃ k, (1 ≤ k ≤ 3)%nat
           ∧ secondary_calls
               (trace (snd (DataFetcher.get_ticker_uncached env exchange symbol w))) =
               (secondary_calls (trace w) + k)%nat
  else
    DataFetcher.get_ticker_uncached env exchange symbol w =
      (Raise e, closed adapter w1)
    ∧ secondary_calls (trace (closed adapter w1)) = secondary_calls (trace w).
Proof.
  intros Hinit Hprimary.
  assert (Hbefore : secondary_calls (trace w1) = secondary_calls (trace w)).
  { pose proof (adapter_get_ticker_world env adapter symbol w0) as Hw1.
    rewrite Hprimary in Hw1. simpl in Hw1. subst w1.
    unfold CCXTAdapter.init in Hinit.
    destruct (bool_decide (exchange ∈ exchanges env)); [|discriminate].
    injection Hinit as <- <-. unfold secondary_calls. simpl.
    rewrite !List.filter_app, !length_app. simpl. lia. }
  rewrite (get_ticker_uncached_unfold _ _ _ _ _ _ Hinit), Hprimary.
  destruct (is_not_found e && key_configured (COINMARKETCAP_KEY env)) eqn:Hcond.
  { split; [reflexivity|].
    apply andb_true_iff in Hcond as [_ Hkey].
    destruct (fallback_requests env symbol w1 Hkey) as (k & Hk & Hcalls).
    exists k. split; [exact Hk|]. simpl. unfold closed, secondary_calls in *.
    simpl. rewrite List.filter_app, length_app. simpl. lia. }
  split; [reflexivity|].
  pose proof (adapter_get_ticker_world env adapter symbol w0) as Hw1.
  rewrite Hprimary in Hw1. simpl in Hw1. subst w1.
  unfold CCXTAdapter.init in Hinit.
  destruct (bool_decide (exchange ∈ exchanges env)); [|discriminate].
  injection Hinit as <- <-. unfold closed, secondary_calls. simpl.
  rewrite !List.filter_app, !length_app. simpl. lia.
Qed.

(** The not-found error of "demo-exchange" for "XRP/USD" reaches the caller
    when no credential is configured. *)
Lemma fallback_gating_witness :
  DataFetcher.get_ticker_uncached (demo_env None failing_secondary)
      "demo-exchange" "XRP/USD" w_init =
    (Raise (HTTPException 404
              (Text "Symbol 'XRP/USD' not found on demo-exchange")),
     {| now := 0; store := ∅;
        trace := [EvOpen 0 "demo-exchange"; EvFetchTicker 0 "XRP/USD";
                  EvClose 0] |})
  ∧ secondary_calls [EvOpen 0 "demo-exchange"; EvFetchTicker 0 "XRP/USD";
                     EvClose 0] = 0%nat.
Proof.
  exact (fallback_gating (demo_env None failing_secondary) "demo-exchange"
           "XRP/USD" w_init _ _ _ _ eq_refl eq_refl).
Defined.

(** ** The cache fingerprint *)

Lemma fingerprint_format_inj op1 p1 s1 op2 p2 s2 :
  occurs ":" op1 = false → occurs ":" op2 = false →
  occurs ":" p1 = false → occurs ":" p2 = false →
  fingerprint_format op1 p1 s1 = fingerprint_format op2 p2 s2 →
  op1 = op2 ∧ p1 = p2 ∧ s1 = s2.
Proof.
  intros Hop1 Hop2 Hp1 Hp2 Heq. unfold fingerprint_format in Heq.
  change (":" +:+ ?x) with (String ":" x) in Heq.
  apply append_cons_colon_inj in Heq as [-> Heq]; [|assumption..].
  change (":" +:+ ?x) with (String ":" x) in Heq.
  apply append_cons_colon_inj in Heq as [-> ->]; auto.
Qed.

(** C8, as amended.  The fingerprint of a ticker request is the string
    "ticker:<provider>:<symbol>", provider and symbol verbatim; and two
    requests whose provider identifiers contain no colon have the same
    fingerprint if and only if they agree on provider and symbol. *)
Theorem key_builder_format_and_injectivity exchange1 symbol1 exchange2 symbol2 :
  occurs ":" exchange1 = false →
  occurs ":" exchange2 = false →
  key_builder exchange1 symbol1 = fingerprint_format "ticker" exchange1 symbol1
  ∧ key_builder exchange1 symbol1 = "ticker:" +:+ exchange1 +:+ ":" +:+ symbol1
  ∧ (key_builder exchange1 symbol1 = key_builder exchange2 symbol2
     ↔ exchange1 = exchange2 ∧ symbol1 = symbol2).
Proof.
  intros H1 H2. split; [reflexivity|]. split; [reflexivity|]. split.
  - intros Heq.
    apply (fingerprint_format_inj "ticker" exchange1 symbol1
                                  "ticker" exchange2 symbol2) in Heq;
      [tauto | reflexivity | reflexivity | assumption | assumption].
  - intros [-> ->]. reflexivity.
Qed.

(** Case is preserved and tells requests apart. *)
Lemma key_builder_format_and_injectivity_witness :
  key_builder "binance" "btc/usdt" = fingerprint_format "ticker" "binance" "btc/usdt"
  ∧ key_builder "binance" "btc/usdt" = "ticker:binance:btc/usdt"
  ∧ (key_builder "binance" "btc/usdt" = key_builder "binance" "BTC/USDT"
     ↔ "binance" = "binance" ∧ "btc/usdt" = "BTC/USDT").
Proof.
  exact (key_builder_format_and_injectivity "binance" "btc/usdt"
           "binance" "BTC/USDT" eq_refl eq_refl).
Defined.

(** C8, as stated, fails: a colon in the provider identifier moves the
    boundary between provider and symbol, and two different requests get
    one fingerprint. *)
Lemma key_builder_collision :
  key_builder "binance" "BTC/USDT:USDT" = key_builder "binance:BTC/USDT" "USDT"
  ∧ "binance" ≠ "binance:BTC/USDT"
  ∧ "BTC/USDT:USDT" ≠ "USDT".
Proof. split; [reflexivity|]. split; discriminate. Qed.

(** ** The retry bound *)

(** C3 at a secondary provider that answers every request with a 500: the
    fallback sends exactly three requests, two seconds apart, and what
    reaches the caller is tenacity's [RetryError] around the last failure,
    not the [HTTPException] that the third attempt raised. *)
Theorem retry_exhausted_raises_RetryError :
  fst (_fetch_from_coinmarketcap (demo_env (Some "test_key") failing_secondary)
         "XRP/USD" w_init) =
    Raise (RetryError
             (HTTPException 500 (Text "Error from CoinMarketCap: upstream failure")))
  ∧ trace (snd (_fetch_from_coinmarketcap
                  (demo_env (Some "test_key") failing_secondary)
                  "XRP/USD" w_init)) =
      [EvHttpGet COINMARKETCAP_API_URL "test_key" "XRP"; EvSleep 2;
       EvHttpGet COINMARKETCAP_API_URL "test_key" "XRP"; EvSleep 2;
       EvHttpGet COINMARKETCAP_API_URL "test_key" "XRP"]
  ∧ fst (_fetch_from_coinmarketcap_once
           (demo_env (Some "test_key") failing_secondary) "XRP/USD" w_init) =
      Raise (HTTPException 500 (Text "Error from CoinMarketCap: upstream failure")).
Proof. repeat split; vm_compute; reflexivity. Qed.

(** ** Release of the adapter *)

Lemma adapter_get_historical_data_world env self symbol timeframe since limit w :
  snd (CCXTAdapter.get_historical_data env self symbol timeframe since limit w) =
    if truthy (has_fetchOHLCV env (CCXTAdapter.exchange_id self))
    then {| now := now w; store := store w;
            trace := trace w ++ [EvFetchOHLCV (CCXTAdapter.handle self) symbol
                                   timeframe since limit] |}
    else w.
Proof.
  unfold CCXTAdapter.get_historical_data.
  destruct (truthy (has_fetchOHLCV env _)); simpl; [|reflexivity].
  unfold try_except, bind, call, lift.
  destruct (fetch_ohlcv env _ _ _ _ _ _) as [data|e]; simpl; [|reflexivity].
  destruct (comprehension (CCXTAdapter.ohlcv_of_item env) data); reflexivity.
Qed.

Lemma adapter_get_order_book_world env self symbol limit w :
  snd (CCXTAdapter.get_order_book env self symbol limit w) =
    {| now := now w; store := store w;
       trace := trace w ++ [EvFetchOrderBook (CCXTAdapter.handle self) symbol limit] |}.
Proof.
  unfold CCXTAdapter.get_order_book, try_except, bind, call, lift.
  destruct (fetch_order_book env _ _ _ _) as [data|e]; simpl; [|reflexivity].
  match goal with |- context [rbind ?r ?k] => destruct (rbind r k) end;
    reflexivity.
Qed.

Lemma try_finally_close_trace {A} (m : M A) self w :
  trace (snd (try_finally m (CCXTAdapter.close self) w)) =
    trace (snd (m w)) ++ [EvClose (CCXTAdapter.handle self)].
Proof. unfold try_finally. destruct (m w) as [r w1]. reflexivity. Qed.

Lemma fallback_events_are_not_session_events evs :
  Forall (fun ev => is_fallback_event ev = true) evs →
  Forall (fun ev => is_session_event ev = false) evs.
Proof.
  intros H. eapply Forall_impl; [exact H|].
  intros ev. destruct ev; simpl; congruence.
Qed.

(** The body of [get_ticker] opens one session, calls the primary provider
    once, possibly talks to the secondary provider, and closes the
    session. *)
Lemma get_ticker_uncached_trace env exchange symbol w :
  exchange ∈ exchanges env →
  ∃ evs,
    trace (snd (DataFetcher.get_ticker_uncached env exchange symbol w)) =
      trace w ++ EvOpen (length (trace w)) exchange
              :: EvFetchTicker (length (trace w)) symbol
              :: evs ++ [EvClose (length (trace w))]
    ∧ Forall (fun ev => is_fallback_event ev = true) evs.
Proof.
  intros Hin.
  rewrite (get_ticker_uncached_unfold _ _ _ _ _ _ (init_known env exchange w Hin)).
  set (adapter := {| CCXTAdapter.exchange_id := exchange;
                     CCXTAdapter.handle := length (trace w) |}).
  set (w0 := {| now := now w; store := store w;
                trace := trace w ++ [EvOpen (length (trace w)) exchange] |}).
  pose proof (adapter_get_ticker_world env adapter symbol w0) as Hw1.
  destruct (CCXTAdapter.get_ticker env adapter symbol w0) as [[t|e] w1];
    simpl in Hw1; subst w1.
  - exists []. simpl. rewrite <- !app_assoc. split; [reflexivity | constructor].
  - destruct (is_not_found e && key_configured (COINMARKETCAP_KEY env)).
    + match goal with |- context [_fetch_from_coinmarketcap env symbol ?w1] =>
        destruct (fallback_world env symbol w1) as (evs & _ & Htr & Hev) end.
      exists evs. simpl. rewrite Htr. simpl. rewrite <- !app_assoc.
      split; [reflexivity | exact Hev].
    + exists []. simpl. rewrite <- !app_assoc. split; [reflexivity | constructor].
Qed.

(** C7.  Each fetch operation that constructs an adapter opens exactly one
    session and closes that session exactly once, as the last thing it
    does, whatever the upstream call returned or raised and whether or not
    the fallback ran: the events of the operation start with the opening
    of the session, end with its closing, and neither open nor close any
    session in between. *)
Theorem adapter_closed_exactly_once env exchange symbol timeframe since limit w :
  exchange ∈ exchanges env →
  (∃ evs,
     trace (snd (DataFetcher.get_ticker_uncached env exchange symbol w)) =
       trace w ++ evs
     ∧ one_session (length (trace w)) exchange evs)
  ∧ (∃ evs,
       trace (snd (DataFetcher.get_historical_data env exchange symbol
                     timeframe since limit w)) = trace w ++ evs
       ∧ one_session (length (trace w)) exchange evs)
  ∧ (∃ evs,
       trace (snd (DataFetcher.get_order_book env exchange symbol limit w)) =
         trace w ++ evs
       ∧ one_session (length (trace w)) exchange evs).
Proof.
  intros Hin. split; [|split].
  - destruct (get_ticker_uncached_trace env exchange symbol w Hin)
      as (evs & Htr & Hev).
    eexists. split; [exact Htr|].
    exists (EvFetchTicker (length (trace w)) symbol :: evs).
    split; [reflexivity|].
    constructor; [reflexivity|].
    apply fallback_events_are_not_session_events, Hev.
  - unfold DataFetcher.get_historical_data, bind.
    rewrite (init_known env exchange w Hin).
    rewrite try_finally_close_trace, adapter_get_historical_data_world. simpl.
    destruct (truthy (has_fetchOHLCV env exchange)); simpl.
    + eexists. rewrite <- !app_assoc. split; [reflexivity|].
      eexists [_]. split; [reflexivity|]. repeat constructor.
    + eexists. rewrite <- !app_assoc. split; [reflexivity|].
      exists []. split; [reflexivity | constructor].
  - unfold DataFetcher.get_order_book, bind.
    rewrite (init_known env exchange w Hin).
    rewrite try_finally_close_trace, adapter_get_order_book_world. simpl.
    eexists. rewrite <- !app_assoc. split; [reflexivity|].
    eexists [_]. split; [reflexivity|]. repeat constructor.
Qed.

(** With a failing secondary provider behind the fallback, the session of
    "demo-exchange" is still opened once and closed once, last. *)
Lemma adapter_closed_exactly_once_witness :
  "demo-exchange" ∈ exchanges (demo_env (Some "test_key") failing_secondary)
  ∧ ∃ evs,
      trace (snd (DataFetcher.get_ticker_uncached
                    (demo_env (Some "test_key") failing_secondary)
                    "demo-exchange" "XRP/USD" w_init)) = trace w_init ++ evs
      ∧ one_session (length (trace w_init)) "demo-exchange" evs.
Proof.
  assert (Hin : "demo-exchange"
                ∈ exchanges (demo_env (Some "test_key") failing_secondary))
    by (simpl; left).
  split; [exact Hin|].
  exact (proj1 (adapter_closed_exactly_once
                  (demo_env (Some "test_key") failing_secondary)
                  "demo-exchange" "XRP/USD" "1h" 0 100 w_init Hin)).
Defined.

(** ** The batch *)

Lemma gather_total {A} (tasks : list (M A)) w :
  ∃ outcomes w',
    gather tasks w = (Ok outcomes, w')
    ∧ length outcomes = length tasks.
Proof.
  revert w. induction tasks as [|task rest IH]; intros w; simpl.
  - exists [], w. split; reflexivity.
  - destruct (task w) as [r w1].
    destruct (IH w1) as (outcomes & w' & -> & Hlen).
    exists (r :: outcomes), w'. simpl. rewrite Hlen. split; reflexivity.
Qed.

Lemma successful_results_elem_of {A} (outcomes : list (result A)) a :
  a ∈ DataFetcher.successful_results outcomes ↔ Ok a ∈ outcomes.
Proof.
  induction outcomes as [|[a0|e] rest IH]; simpl.
  - split; intros H; inversion H.
  - rewrite !elem_of_cons, IH. split; intros [H|H]; auto; left; congruence.
  - rewrite elem_of_cons, IH. split; [auto|]. intros [H|H]; [discriminate|exact H].
Qed.

Lemma successful_results_length {A} (outcomes : list (result A)) :
  (length (DataFetcher.successful_results outcomes) + failures outcomes
   = length outcomes)%nat.
Proof.
  unfold failures. induction outcomes as [|[a|e] rest IH]; simpl; lia.
Qed.

(** C4.  The batch fetch never raises: it returns the tickers of exactly
    those items whose fetch succeeded.  So the result is never longer than
    the request, and when exactly one of the N items fails the result holds
    the N-1 others. *)
Theorem batch_isolation env (requests : list (string * string)) w :
  ∃ outcomes w',
    gather
      (map (fun req => DataFetcher.get_ticker env (fst req) (snd req)) requests)
      w = (Ok outcomes, w')
    ∧ length outcomes = length requests
    ∧ DataFetcher.get_batch_tickers env requests w =
        (Ok (DataFetcher.successful_results outcomes), w')
    ∧ (∀ t, t ∈ DataFetcher.successful_results outcomes ↔ Ok t ∈ outcomes)
    ∧ (length (DataFetcher.successful_results outcomes) ≤ length requests)%nat
    ∧ (failures outcomes = 1%nat →
       S (length (DataFetcher.successful_results outcomes)) = length requests).
Proof.
  destruct (gather_total
              (map (fun req => DataFetcher.get_ticker env (fst req) (snd req))
                   requests) w) as (outcomes & w' & Hg & Hlen).
  rewrite length_map in Hlen.
  exists outcomes, w'. split; [exact Hg|]. split; [exact Hlen|].
  split; [unfold DataFetcher.get_batch_tickers, bind; rewrite Hg; reflexivity|].
  split; [apply successful_results_elem_of|].
  pose proof (successful_results_length outcomes). split; lia.
Qed.

(** Three requests to "demo-exchange", the second for a symbol it does not
    know (and no credential for the fallback): the batch returns two
    tickers. *)
Lemma batch_isolation_witness :
  ∃ tickers w',
    DataFetcher.get_batch_tickers (demo_env None failing_secondary)
      [("demo-exchange", "BTC/USDT"); ("demo-exchange", "XRP/USD");
       ("demo-exchange", "BTC/USDT")] w_init = (Ok tickers, w')
    ∧ S (length tickers) = 3%nat.
Proof.
  destruct (batch_isolation (demo_env None failing_secondary)
              [("demo-exchange", "BTC/USDT"); ("demo-exchange", "XRP/USD");
               ("demo-exchange", "BTC/USDT")] w_init)
    as (outcomes & w' & Hg & _ & Hbatch & _ & _ & Hone).
  exists (DataFetcher.successful_results outcomes), w'.
  split; [exact Hbatch|]. apply Hone.
  vm_compute in Hg. injection Hg as <- _. reflexivity.
Defined.

(** ** Historical data *)

(** C6, as amended.  Without the capability the historical-data operation
    fails with the unsupported-operation classification (501) and the world
    is left as it was: the upstream call is not attempted.  With the
    capability, every failure is classified internal (500), its cause kept
    in the detail, and this includes what the upstream call raises for an
    unknown symbol or a network failure. *)
Theorem historical_capability_and_classification
    env self symbol timeframe since limit w :
  if truthy (has_fetchOHLCV env (CCXTAdapter.exchange_id self))
  then
    (∀ e,
       fst (CCXTAdapter.get_historical_data env self symbol timeframe since
              limit w) = Raise e →
       ∃ cause,
         e = HTTPException 500 (TextOf "Failed to fetch historical data: " cause))
    ∧ (∀ cause,
         fetch_ohlcv env (CCXTAdapter.exchange_id self) symbol timeframe since
                     limit (length (trace w)) = Raise cause →
         fst (CCXTAdapter.get_historical_data env self symbol timeframe since
                limit w) =
           Raise (HTTPException 500
                    (TextOf "Failed to fetch historical data: " cause)))
  else
    CCXTAdapter.get_historical_data env self symbol timeframe since limit w =
      (Raise (HTTPException 501
                (Text ("Exchange '" +:+ CCXTAdapter.exchange_id self
                       +:+ "' does not support fetching OHLCV data."))),
       w).
Proof.
  unfold CCXTAdapter.get_historical_data.
  destruct (truthy (has_fetchOHLCV env _)); simpl; [|reflexivity].
  unfold try_except, bind, call, lift.
  destruct (fetch_ohlcv env _ _ _ _ _ _) as [data|e0]; simpl.
  - split; [|discriminate].
    destruct (comprehension (CCXTAdapter.ohlcv_of_item env) data); simpl;
      [discriminate|]. intros e1 [= <-]. eauto.
  - split; [intros e1 [= <-]; eauto|]. intros cause [= <-]. reflexivity.
Qed.

(** C6, as stated, fails: "demo-exchange" advertises the capability and
    does not know "XRP/USD"; the historical-data operation reports an
    internal error where the ticker operation reports not-found. *)
Lemma historical_unknown_symbol_is_internal :
  truthy (has_fetchOHLCV (demo_env None failing_secondary) "demo-exchange") = true
  ∧ fst (CCXTAdapter.get_historical_data (demo_env None failing_secondary)
           {| CCXTAdapter.exchange_id := "demo-exchange"; CCXTAdapter.handle := 0 |}
           "XRP/USD" "1h" 0 100 w_init) =
      Raise (HTTPException 500
               (TextOf "Failed to fetch historical data: "
                  (BadSymbol "demo-exchange does not have market symbol XRP/USD")))
  ∧ fst (CCXTAdapter.get_ticker (demo_env None failing_secondary)
           {| CCXTAdapter.exchange_id := "demo-exchange"; CCXTAdapter.handle := 0 |}
           "XRP/USD" w_init) =
      Raise (HTTPException 404 (Text "Symbol 'XRP/USD' not found on demo-exchange")).
Proof. repeat split; vm_compute; reflexivity. Qed.

(** On "demo-exchange", which advertises the capability, the unknown
    symbol "XRP/USD" is reported as an internal error. *)
Lemma historical_capability_and_classification_witness :
  fst (CCXTAdapter.get_historical_data (demo_env None failing_secondary)
         {| CCXTAdapter.exchange_id := "demo-exchange"; CCXTAdapter.handle := 0 |}
         "XRP/USD" "1h" 0 100 w_init) =
    Raise (HTTPException 500
             (TextOf "Failed to fetch historical data: "
                (BadSymbol "demo-exchange does not have market symbol XRP/USD"))).
Proof.
  exact (proj2 (historical_capability_and_classification
                  (demo_env None failing_secondary)
                  {| CCXTAdapter.exchange_id := "demo-exchange";
                     CCXTAdapter.handle := 0 |}
                  "XRP/USD" "1h" 0 100 w_init) _ eq_refl).
Defined.

(** ** Symbols without a separator *)

Lemma rbind_ok {A B} (r : result A) (k : A → result B) b :
  rbind r k = Ok b → ∃ a, r = Ok a ∧ k a = Ok b.
Proof. destruct r as [a|e]; simpl; [eauto | discriminate]. Qed.

(** An attempt returns a ticker only if the quote currency can be read off
    the symbol. *)
Lemma once_ok_has_quote_code env symbol w t :
  fst (_fetch_from_coinmarketcap_once env symbol w) = Ok t →
  ∃ quote_code, list_getitem (split "/" symbol) 1 = Ok quote_code.
Proof.
  unfold _fetch_from_coinmarketcap_once.
  destruct (key_configured (COINMARKETCAP_KEY env)); simpl; [|discriminate].
  unfold bind, lift, try_except, call.
  destruct (list_getitem (split "/" symbol) 0) as [base|e]; simpl;
    [|discriminate].
  destruct (http_get env _ _ _ _) as [response|e]; simpl.
  - match goal with |- context [rbind ?r ?k] => destruct (rbind r k) as [t0|e] eqn:Hpure end;
      simpl.
    + intros _.
      repeat (apply rbind_ok in Hpure as (? & ? & Hpure)). eauto.
    + destruct e; discriminate.
  - destruct e; discriminate.
Qed.

(** C10.  For a symbol without "/": no attempt of the fallback returns a
    ticker, hence neither does the retried fallback, nor a fetch whose
    primary call failed; and an attempt that gets as far as reading the
    quote currency off the symbol is classified not-found with the "could
    not parse" detail. *)
Theorem no_separator_fallback_never_succeeds env symbol :
  occurs "/" symbol = false →
  (∀ w, is_ok (fst (_fetch_from_coinmarketcap_once env symbol w)) = false)
  ∧ (∀ w, is_ok (fst (_fetch_from_coinmarketcap env symbol w)) = false)
  ∧ (∀ exchange w adapter w0 e w1,
       CCXTAdapter.init env exchange w = (Ok adapter, w0) →
       CCXTAdapter.get_ticker env adapter symbol w0 = (Raise e, w1) →
       is_ok (fst (DataFetcher.get_ticker_uncached env exchange symbol w)) = false)
  ∧ (∀ w response data by_base entry by_quote,
       key_configured (COINMARKETCAP_KEY env) = true →
       http_get env COINMARKETCAP_API_URL (default "" (COINMARKETCAP_KEY env))
                symbol (length (trace w)) = Ok response →
       raise_for_status response = Ok tt →
       body response = Some data →
       getitem data "data" = Ok by_base →
       getitem by_base symbol = Ok entry →
       getitem entry "quote" = Ok by_quote →
       fst (_fetch_from_coinmarketcap_once env symbol w) =
         Raise (HTTPException 404
                  (Text ("Could not parse CoinMarketCap response for '"
                         +:+ symbol +:+ "'.")))).
Proof.
  intros Hsep. pose proof (split_no_separator "/" symbol Hsep) as Hsplit.
  assert (Honce : ∀ w, is_ok (fst (_fetch_from_coinmarketcap_once env symbol w)) = false).
  { intros w.
    destruct (fst (_fetch_from_coinmarketcap_once env symbol w)) as [t|e] eqn:H;
      [|reflexivity].
    apply once_ok_has_quote_code in H as [q Hq]. rewrite Hsplit in Hq.
    discriminate. }
  assert (Hretry : ∀ w, is_ok (fst (_fetch_from_coinmarketcap env symbol w)) = false).
  { intros w.
    destruct (_fetch_from_coinmarketcap env symbol w) as [[t|e] w'] eqn:H;
      [|reflexivity].
    apply attempts_ok in H as [w0 H]. specialize (Honce w0).
    rewrite H in Honce. discriminate. }
  split; [exact Honce|]. split; [exact Hretry|]. split.
  - intros exchange w adapter w0 e w1 Hinit Hprimary.
    rewrite (get_ticker_uncached_unfold _ _ _ _ _ _ Hinit), Hprimary.
    destruct (is_not_found e && key_configured (COINMARKETCAP_KEY env));
      [apply Hretry | reflexivity].
  - intros w response data by_base entry by_quote Hkey Hget Hstatus Hbody
           Hdata Hentry Hquote.
    unfold _fetch_from_coinmarketcap_once. rewrite Hkey, Hsplit. simpl.
    unfold bind, lift, try_except, call. simpl. rewrite Hget. simpl.
    unfold response_json. rewrite Hstatus, Hbody. simpl.
    rewrite Hdata. simpl. rewrite Hentry. simpl. rewrite Hquote. reflexivity.
Qed.

(** "XRP" has no separator; the fallback cannot answer for it even though
    the secondary provider knows XRP. *)
Lemma no_separator_fallback_never_succeeds_witness :
  is_ok (fst (_fetch_from_coinmarketcap (demo_env (Some "test_key") xrp_secondary)
                "XRP" w_init)) = false.
Proof.
  exact (proj1 (proj2 (no_separator_fallback_never_succeeds
                         (demo_env (Some "test_key") xrp_secondary) "XRP"
                         eq_refl)) w_init).
Defined.

(** ** The cache *)

Lemma cached_hit env ttl key compute w v :
  fresh_entry env w key = Some v → cached env ttl key compute w = (Ok v, w).
Proof. unfold fresh_entry, cached. intros ->. reflexivity. Qed.

Lemma cached_miss env ttl key compute w :
  fresh_entry env w key = None →
  cached env ttl key compute w =
    match compute w with
    | (Ok v, w1) =>
        (Ok v, {| now := now w1;
                  store := <[key := (Ticker_dumps v, now w1 + ttl)]> (store w1);
                  trace := trace w1 |})
    | (Raise e, w1) => (Raise e, w1)
    end.
Proof. unfold fresh_entry, cached. intros ->. reflexivity. Qed.

(** An exception of the compute function passes through the decorator as
    it is. *)
Lemma cached_raise env ttl key compute w e w1 :
  fresh_entry env w key = None →
  compute w = (Raise e, w1) → cached env ttl key compute w = (Raise e, w1).
Proof. intros Hmiss Hc. rewrite (cached_miss _ _ _ _ _ Hmiss), Hc. reflexivity. Qed.

(** A ticker read back from what the serializer wrote for it is that
    ticker: every field is written as a JSON value of the kind that the
    model declares for it. *)
Lemma Ticker_loads_dumps env t : Ticker_loads env (Ticker_dumps t) = Ok t.
Proof. destruct t. reflexivity. Qed.

(** An entry written for [t] is served as [t] until it expires. *)
Lemma cache_get_written env w key t expiry :
  store w !! key = Some (Ticker_dumps t, expiry) → now w < expiry →
  cache_get env w key = Some t.
Proof.
  intros Hentry Hnow. unfold cache_get. rewrite Hentry, Ticker_loads_dumps.
  destruct (now w <? expiry) eqn:Hlt; [reflexivity|].
  apply Z.ltb_ge in Hlt. lia.
Qed.

(** A fetch that finds nothing to serve and succeeds leaves the serialized
    ticker in the cache, to expire ten seconds later. *)
Lemma get_ticker_miss_stores env exchange symbol w t w1 :
  fresh_entry env w (key_builder exchange symbol) = None →
  DataFetcher.get_ticker env exchange symbol w = (Ok t, w1) →
  ∃ w0,
    DataFetcher.get_ticker_uncached env exchange symbol w = (Ok t, w0)
    ∧ w1 = {| now := now w0;
              store := <[key_builder exchange symbol :=
                           (Ticker_dumps t, now w0 + 10)]> (store w0);
              trace := trace w0 |}.
Proof.
  intros Hmiss Hfirst. unfold DataFetcher.get_ticker in Hfirst.
  rewrite (cached_miss _ _ _ _ _ Hmiss) in Hfirst.
  destruct (DataFetcher.get_ticker_uncached env exchange symbol w)
    as [[t0|e] w0]; [|discriminate].
  injection Hfirst as -> <-. eauto.
Qed.

Lemma get_ticker_uncached_ok_known env exchange symbol w t w1 :
  DataFetcher.get_ticker_uncached env exchange symbol w = (Ok t, w1) →
  exchange ∈ exchanges env.
Proof.
  intros H. destruct (decide (exchange ∈ exchanges env)) as [Hin|Hout];
    [exact Hin|].
  unfold DataFetcher.get_ticker_uncached, bind in H.
  rewrite (init_unknown env exchange w Hout) in H. discriminate.
Qed.

Lemma primary_calls_fallback_events evs :
  Forall (fun ev => is_fallback_event ev = true) evs → primary_calls evs = 0%nat.
Proof.
  unfold primary_calls. induction 1 as [|ev evs Hev _ IH]; [reflexivity|].
  destruct ev; simpl in *; try discriminate; exact IH.
Qed.

Lemma primary_calls_app tr1 tr2 :
  primary_calls (tr1 ++ tr2) = (primary_calls tr1 + primary_calls tr2)%nat.
Proof. unfold primary_calls. rewrite List.filter_app, length_app. reflexivity. Qed.

(** C1.  When a ticker fetch finds no entry to serve, it invokes the
    primary provider's ticker endpoint exactly once; and once it has
    returned a ticker, a second fetch of the same provider and symbol
    issued within the next 10 seconds returns that ticker from the cache
    and leaves the world as it was: no provider is invoked.  The two
    fetches together invoke the upstream provider once. *)
Theorem cache_dedup env exchange symbol w t w1 :
  fresh_entry env w (key_builder exchange symbol) = None →
  DataFetcher.get_ticker env exchange symbol w = (Ok t, w1) →
  primary_calls (trace w1) = S (primary_calls (trace w))
  ∧ ∀ w2,
      store w2 !! key_builder exchange symbol
        = store w1 !! key_builder exchange symbol →
      now w1 ≤ now w2 < now w1 + 10 →
      DataFetcher.get_ticker env exchange symbol w2 = (Ok t, w2).
Proof.
  intros Hmiss Hfirst.
  destruct (get_ticker_miss_stores _ _ _ _ _ _ Hmiss Hfirst) as (w0 & Hbody & ->).
  simpl. split.
  - pose proof (get_ticker_uncached_ok_known _ _ _ _ _ _ Hbody) as Hin.
    destruct (get_ticker_uncached_trace env exchange symbol w Hin)
      as (evs & Htr & Hev).
    rewrite Hbody in Htr. simpl in Htr. rewrite Htr.
    change (?a :: ?b :: evs ++ ?c) with ([a; b] ++ evs ++ c).
    rewrite !primary_calls_app, (primary_calls_fallback_events evs Hev).
    unfold primary_calls. simpl. lia.
  - intros w2 Hstore Hnow. apply cached_hit.
    apply (cache_get_written _ _ _ _ (now w0 + 10)); [|lia].
    rewrite Hstore. simpl. apply lookup_insert_eq.
Qed.

(** "demo-exchange" is asked once for "BTC/USDT"; nine seconds later the
    same ticker comes from the cache. *)
Lemma cache_dedup_witness :
  ∃ t w1,
    DataFetcher.get_ticker (demo_env None failing_secondary)
      "demo-exchange" "BTC/USDT" w_init = (Ok t, w1)
    ∧ last t = 50000%float
    ∧ primary_calls (trace w1) = 1%nat
    ∧ DataFetcher.get_ticker (demo_env None failing_secondary)
        "demo-exchange" "BTC/USDT" (advance 9 w1) = (Ok t, advance 9 w1).
Proof.
  destruct (DataFetcher.get_ticker (demo_env None failing_secondary)
              "demo-exchange" "BTC/USDT" w_init) as [r w1] eqn:Hfirst.
  assert (Hr : r = fst (DataFetcher.get_ticker (demo_env None failing_secondary)
                          "demo-exchange" "BTC/USDT" w_init))
    by (rewrite Hfirst; reflexivity).
  vm_compute in Hr. subst r.
  destruct (cache_dedup (demo_env None failing_secondary) "demo-exchange"
              "BTC/USDT" w_init _ w1 eq_refl Hfirst) as [Hcalls Hsecond].
  eexists _, w1. split; [reflexivity|]. split; [reflexivity|].
  split; [exact Hcalls|].
  apply Hsecond; [reflexivity|]. simpl. lia.
Defined.

(** C9.  A ticker that a fetch has obtained and stored is written to
    the cache as the JSON object of its eight fields; reading that object
    back gives the ticker again; and a second fetch of the same provider
    and symbol within the next 10 seconds returns what is read back from
    the stored entry, a ticker whose symbol, last, bid, ask, high, low,
    volume and timestamp are those of the first result. *)
Theorem refetched_ticker_is_identical env exchange sym w t w1 :
  fresh_entry env w (key_builder exchange sym) = None →
  DataFetcher.get_ticker env exchange sym w = (Ok t, w1) →
  store w1 !! key_builder exchange sym = Some (Ticker_dumps t, now w1 + 10)
  ∧ Ticker_loads env (Ticker_dumps t) = Ok t
  ∧ ∀ w2,
      store w2 !! key_builder exchange sym
        = store w1 !! key_builder exchange sym →
      now w1 ≤ now w2 < now w1 + 10 →
      ∃ t2,
        fst (DataFetcher.get_ticker env exchange sym w2) = Ok t2
        ∧ Ticker_loads env (Ticker_dumps t) = Ok t2
        ∧ symbol t2 = symbol t
        ∧ last t2 = last t ∧ bid t2 = bid t ∧ ask t2 = ask t
        ∧ high t2 = high t ∧ low t2 = low t ∧ volume t2 = volume t
        ∧ timestamp t2 = timestamp t.
Proof.
  intros Hmiss Hfirst.
  destruct (get_ticker_miss_stores _ _ _ _ _ _ Hmiss Hfirst) as (w0 & _ & ->).
  simpl. split; [apply lookup_insert_eq|].
  split; [apply Ticker_loads_dumps|].
  intros w2 Hstore Hnow. rewrite lookup_insert_eq in Hstore.
  exists t. unfold DataFetcher.get_ticker.
  rewrite (cached_hit env 10 _ _ w2 t
             (cache_get_written env w2 _ t _ Hstore (proj2 Hnow))).
  split; [reflexivity|]. split; [apply Ticker_loads_dumps|].
  repeat split.
Qed.

(** "demo-exchange" does not know "XRP/USD" and the secondary provider
    quotes it at 0.52: five seconds after the fetch, the ticker read back
    from the cache has the same fields. *)
Lemma refetched_ticker_is_identical_witness :
  ∃ t w1 t2,
    DataFetcher.get_ticker (demo_env (Some "test_key") xrp_secondary)
      "demo-exchange" "XRP/USD" w_init = (Ok t, w1)
    ∧ fst (DataFetcher.get_ticker (demo_env (Some "test_key") xrp_secondary)
             "demo-exchange" "XRP/USD" (advance 5 w1)) = Ok t2
    ∧ last t = 0.52%float ∧ last t2 = last t ∧ volume t2 = volume t
    ∧ timestamp t2 = timestamp t.
Proof.
  destruct (DataFetcher.get_ticker (demo_env (Some "test_key") xrp_secondary)
              "demo-exchange" "XRP/USD" w_init) as [r w1] eqn:Hfirst.
  assert (Hr : r = fst (DataFetcher.get_ticker
                          (demo_env (Some "test_key") xrp_secondary)
                          "demo-exchange" "XRP/USD" w_init))
    by (rewrite Hfirst; reflexivity).
  vm_compute in Hr. subst r.
  destruct (refetched_ticker_is_identical
              (demo_env (Some "test_key") xrp_secondary) "demo-exchange"
              "XRP/USD" w_init _ w1 eq_refl Hfirst) as (_ & _ & Hsecond).
  destruct (Hsecond (advance 5 w1) eq_refl) as (t2 & Hget & _ & _ & Hlast & _ & _
                                                & _ & _ & Hvol & Hts).
  { simpl. lia. }
  eexists _, w1, t2. split; [reflexivity|]. split; [exact Hget|].
  split; [reflexivity|]. split; [exact Hlast|]. split; [exact Hvol | exact Hts].
Defined.

(** ** Re-shaping of the secondary provider's response *)

Lemma attempts_first_ok {A} wait remaining n (f : M A) w a w1 :
  f w = (Ok a, w1) → attempts wait remaining n f w = (Ok a, w1).
Proof. intros H. destruct remaining; simpl; rewrite H; reflexivity. Qed.

Lemma float_of_zero : float_of_Z 0 = Some 0%float.
Proof. vm_compute. reflexivity. Qed.

Lemma absent_field_defaults_to_zero env (quote : gmap string json) k x :
  quote !! k = None →
  as_float env (default (JInt 0) (quote !! k)) = Some x → x = 0%float.
Proof. intros ->. simpl. rewrite float_of_zero. intros [= <-]. reflexivity. Qed.

(** An attempt that the secondary provider answers with a well-formed quote
    returns the re-shaped ticker. *)
Lemma once_reshapes env symbol w quote ts p b a h l v :
  key_configured (COINMARKETCAP_KEY env) = true →
  secondary_answers env symbol w quote ts →
  quote_fields env quote p b a h l v →
  fst (_fetch_from_coinmarketcap_once env symbol w) =
    Ok {| symbol := symbol; last := p; bid := b; ask := a; high := h;
          low := l; volume := v; timestamp := ts |}.
Proof.
  intros Hkey (base & quote_code & rest & response & data & by_base & entry
               & by_quote & Hsplit & Hget & Hstatus & Hbody & Hdata & Hentry
               & Hquote & Hq & Hts) (Hp & Hb & Ha & Hh & Hl & Hv).
  unfold _fetch_from_coinmarketcap_once. rewrite Hkey, Hsplit. simpl.
  unfold bind, lift, try_except, call. simpl. rewrite Hget. simpl.
  unfold response_json. rewrite Hstatus, Hbody. simpl.
  rewrite Hdata. simpl. rewrite Hentry. simpl. rewrite Hquote. simpl.
  rewrite Hq. simpl. rewrite Hts. simpl.
  destruct (quote !! "price") as [vp|]; [|discriminate]. simpl in Hp |- *.
  destruct (quote !! "volume_24h") as [vv|]; [|discriminate]. simpl in Hv |- *.
  unfold Ticker_init. simpl. rewrite Hp, Hb, Ha, Hh, Hl, Hv. reflexivity.
Qed.

(** An attempt whose response lacks the base currency, or the quote
    currency under it, is classified not-found. *)
Lemma once_missing_key env symbol w base quote_code rest response data by_base :
  key_configured (COINMARKETCAP_KEY env) = true →
  split "/" symbol = base :: quote_code :: rest →
  http_get env COINMARKETCAP_API_URL (default "" (COINMARKETCAP_KEY env))
           base (length (trace w)) = Ok response →
  raise_for_status response = Ok tt →
  body response = Some data →
  getitem data "data" = Ok (JObj by_base) →
  (by_base !! base = None
   ∨ ∃ entry by_quote,
       by_base !! base = Some entry
       ∧ getitem entry "quote" = Ok (JObj by_quote)
       ∧ by_quote !! quote_code = None) →
  fst (_fetch_from_coinmarketcap_once env symbol w) =
    Raise (HTTPException 404
             (Text ("Could not parse CoinMarketCap response for '"
                    +:+ symbol +:+ "'."))).
Proof.
  intros Hkey Hsplit Hget Hstatus Hbody Hdata Hmissing.
  unfold _fetch_from_coinmarketcap_once. rewrite Hkey, Hsplit. simpl.
  unfold bind, lift, try_except, call. simpl. rewrite Hget. simpl.
  unfold response_json. rewrite Hstatus, Hbody. simpl.
  rewrite Hdata. simpl.
  destruct Hmissing as [Hbase | (entry & by_quote & Hbase & Hquote & Hcode)];
    rewrite Hbase; simpl; [reflexivity|].
  rewrite Hquote. simpl. rewrite Hcode. reflexivity.
Qed.

(** X19.  In the re-shaping of a response of the secondary provider (a
    success response whose timestamp placeholder converts, with a quote
    object whose price and 24-hour volume validate as numbers), each of
    bid, ask, high and low that is absent from the quote object is 0 in the
    ticker; a response without the base currency, or without the quote
    currency under it, is classified not-found; and when the primary
    provider reports the symbol not found and a credential is configured,
    the fetch returns the re-shaped ticker. *)
Theorem fallback_reshaping env symbol quote ts p b a h l v :
  key_configured (COINMARKETCAP_KEY env) = true →
  quote_fields env quote p b a h l v →
  (∀ w,
     secondary_answers env symbol w quote ts →
     fst (_fetch_from_coinmarketcap_once env symbol w) =
       Ok {| symbol := symbol; last := p; bid := b; ask := a; high := h;
             low := l; volume := v; timestamp := ts |})
  ∧ (quote !! "bid" = None → b = 0%float)
  ∧ (quote !! "ask" = None → a = 0%float)
  ∧ (quote !! "high_24h" = None → h = 0%float)
  ∧ (quote !! "low_24h" = None → l = 0%float)
  ∧ (∀ w base quote_code rest response data by_base,
       split "/" symbol = base :: quote_code :: rest →
       http_get env COINMARKETCAP_API_URL (default "" (COINMARKETCAP_KEY env))
                base (length (trace w)) = Ok response →
       raise_for_status response = Ok tt →
       body response = Some data →
       getitem data "data" = Ok (JObj by_base) →
       (by_base !! base = None
        ∨ ∃ entry by_quote,
            by_base !! base = Some entry
            ∧ getitem entry "quote" = Ok (JObj by_quote)
            ∧ by_quote !! quote_code = None) →
       fst (_fetch_from_coinmarketcap_once env symbol w) =
         Raise (HTTPException 404
                  (Text ("Could not parse CoinMarketCap response for '"
                         +:+ symbol +:+ "'."))))
  ∧ (∀ exchange w adapter w0 e w1,
       CCXTAdapter.init env exchange w = (Ok adapter, w0) →
       CCXTAdapter.get_ticker env adapter symbol w0 = (Raise e, w1) →
       is_not_found e = true →
       secondary_answers env symbol w1 quote ts →
       fst (DataFetcher.get_ticker_uncached env exchange symbol w) =
         Ok {| symbol := symbol; last := p; bid := b; ask := a; high := h;
               low := l; volume := v; timestamp := ts |}).
Proof.
  intros Hkey Hfields.
  split; [intros w Hans; exact (once_reshapes _ _ _ _ _ _ _ _ _ _ _ Hkey Hans Hfields)|].
  destruct Hfields as (Hp & Hb & Ha & Hh & Hl & Hv).
  split; [intros H; exact (absent_field_defaults_to_zero _ _ _ _ H Hb)|].
  split; [intros H; exact (absent_field_defaults_to_zero _ _ _ _ H Ha)|].
  split; [intros H; exact (absent_field_defaults_to_zero _ _ _ _ H Hh)|].
  split; [intros H; exact (absent_field_defaults_to_zero _ _ _ _ H Hl)|].
  split.
  - intros w base quote_code rest response data by_base.
    apply once_missing_key, Hkey.
  - intros exchange w adapter w0 e w1 Hinit Hprimary Hnf Hans.
    rewrite (get_ticker_uncached_unfold _ _ _ _ _ _ Hinit), Hprimary, Hnf, Hkey.
    simpl.
    pose proof (once_reshapes _ _ _ _ _ _ _ _ _ _ _ Hkey Hans
                  (conj Hp (conj Hb (conj Ha (conj Hh (conj Hl Hv))))))
      as Honce.
    destruct (_fetch_from_coinmarketcap_once env symbol w1) as [r w2] eqn:Hrun.
    simpl in Honce. subst r.
    unfold _fetch_from_coinmarketcap, retry.
    rewrite (attempts_first_ok _ _ _ _ _ _ _ Hrun). reflexivity.
Qed.

(** "demo-exchange" does not know "XRP/USD", a credential is configured,
    and the secondary provider quotes XRP in USD at 0.52 with a volume, in
    a response without a [Date] header. *)
Lemma fallback_reshaping_witness :
  fst (DataFetcher.get_ticker_uncached (demo_env (Some "test_key") xrp_secondary)
         "demo-exchange" "XRP/USD" w_init) =
    Ok {| symbol := "XRP/USD"; last := 0.52; bid := 0; ask := 0; high := 0;
          low := 0; volume := 1000; timestamp := 0 |}.
Proof.
  assert (Hfields : quote_fields (demo_env (Some "test_key") xrp_secondary)
                      (list_to_map xrp_quote) 0.52 0 0 0 0 1000)
    by (repeat split; vm_compute; reflexivity).
  destruct (fallback_reshaping (demo_env (Some "test_key") xrp_secondary)
              "XRP/USD" (list_to_map xrp_quote) 0 0.52 0 0 0 0 1000
              eq_refl Hfields) as (_ & _ & _ & _ & _ & _ & Hfetch).
  eapply Hfetch; [reflexivity | reflexivity | reflexivity |].
  unfold secondary_answers. do 8 eexists.
  repeat split; reflexivity.
Defined.

(** The 24-hour volume is required: with a quote object that holds
    nothing but the price, every attempt is classified not-found. *)
Lemma fallback_price_only_fails :
  fst (_fetch_from_coinmarketcap_once
         (demo_env (Some "test_key") xrp_price_only) "XRP/USD" w_init) =
    Raise (HTTPException 404
             (Text "Could not parse CoinMarketCap response for 'XRP/USD'."))
  ∧ fst (DataFetcher.get_ticker_uncached
           (demo_env (Some "test_key") xrp_price_only)
           "demo-exchange" "XRP/USD" w_init) =
      Raise (RetryError
               (HTTPException 404
                  (Text "Could not parse CoinMarketCap response for 'XRP/USD'."))).
Proof. repeat split; vm_compute; reflexivity. Qed.

(** C5.  The timestamp placeholder of line 108 converts the [Date] header
    of the response with [int].  "demo-exchange" reports "XRP/USD" not
    found, a credential is configured, and the secondary provider answers
    200 with XRP quoted in USD at 0.52, with a volume; its response carries
    the header [Date: Mon, 02 Jan 2023 00:00:00 GMT].  Every attempt raises
    [ValueError], which no handler of the fallback catches; three requests
    are sent and the fetch fails with a [RetryError], where the same data
    in a response without the header gives the ticker with last 0.52 and
    bid, ask, high and low 0. *)
Theorem fallback_dated_response_fails :
  fst (CCXTAdapter.get_ticker (demo_env (Some "test_key") xrp_dated)
         {| CCXTAdapter.exchange_id := "demo-exchange"; CCXTAdapter.handle := 0 |}
         "XRP/USD" w_init) =
    Raise (HTTPException 404 (Text "Symbol 'XRP/USD' not found on demo-exchange"))
  ∧ key_configured (COINMARKETCAP_KEY (demo_env (Some "test_key") xrp_dated))
    = true
  ∧ (∀ base i,
       xrp_dated base i =
         Ok {| status_code := 200; text := "";
               body := Some (cmc_payload "XRP" "USD"
                               [("price", JFloat 0.52); ("volume_24h", JInt 1000)]);
               date := Some "Mon, 02 Jan 2023 00:00:00 GMT" |})
  ∧ fst (_fetch_from_coinmarketcap_once (demo_env (Some "test_key") xrp_dated)
           "XRP/USD" w_init) =
      Raise (ValueError
               "invalid literal for int() with base 10: 'Mon, 02 Jan 2023 00:00:00 GMT'")
  ∧ fst (DataFetcher.get_ticker (demo_env (Some "test_key") xrp_dated)
           "demo-exchange" "XRP/USD" w_init) =
      Raise (RetryError
               (ValueError
                  "invalid literal for int() with base 10: 'Mon, 02 Jan 2023 00:00:00 GMT'"))
  ∧ secondary_calls
      (trace (snd (DataFetcher.get_ticker (demo_env (Some "test_key") xrp_dated)
                     "demo-exchange" "XRP/USD" w_init))) = 3%nat
  ∧ fst (DataFetcher.get_ticker (demo_env (Some "test_key") xrp_secondary)
           "demo-exchange" "XRP/USD" w_init) =
      Ok {| symbol := "XRP/USD"; last := 0.52; bid := 0; ask := 0; high := 0;
            low := 0; volume := 1000; timestamp := 0 |}.
Proof.
  split; [vm_compute; reflexivity|]. split; [reflexivity|].
  split; [intros base i; reflexivity|].
  repeat split; vm_compute; reflexivity.
Qed.

(** * Further properties of the code *)

(** ** The adapter's ticker call *)

(** X1.  The adapter's ticker call classifies what the exchange raises:
    [BadSymbol] becomes 404 with the symbol and the exchange in the detail,
    [NetworkError] becomes 503, and any other exception becomes 500 with
    the exception in the detail; when the exchange answers, the only way
    to fail is 500. *)
Theorem adapter_ticker_classification env self symbol w :
  match fetch_ticker env (CCXTAdapter.exchange_id self) symbol
                     (length (trace w)) with
  | Raise (BadSymbol m) =>
      fst (CCXTAdapter.get_ticker env self symbol w) =
        Raise (HTTPException 404
                 (Text ("Symbol '" +:+ symbol +:+ "' not found on "
                        +:+ CCXTAdapter.exchange_id self)))
  | Raise (NetworkError m) =>
      fst (CCXTAdapter.get_ticker env self symbol w) =
        Raise (HTTPException 503
                 (Text ("Network error connecting to "
                        +:+ CCXTAdapter.exchange_id self)))
  | Raise e =>
      fst (CCXTAdapter.get_ticker env self symbol w) =
        Raise (HTTPException 500 (TextOf "An unexpected error occurred: " e))
  | Ok data =>
      ∀ e, fst (CCXTAdapter.get_ticker env self symbol w) = Raise e →
           ∃ cause,
             e = HTTPException 500 (TextOf "An unexpected error occurred: " cause)
             ∧ ∀ m, cause ≠ BadSymbol m ∧ cause ≠ NetworkError m
  end.
Proof.
  unfold CCXTAdapter.get_ticker, try_except, bind, call, lift.
  destruct (fetch_ticker env _ symbol _) as [data|e0]; simpl.
  - match goal with |- context [rbind ?r ?k] => destruct (rbind r k) as [t|e1] eqn:H end;
      simpl; [discriminate|].
    assert (Hkind : ∀ m, e1 ≠ BadSymbol m ∧ e1 ≠ NetworkError m).
    { intros m.
      unfold getitem, Ticker_init, validated in H.
      repeat match type of H with
             | rbind ?r _ = _ =>
                 let Hr := fresh in
                 destruct r as [?|?] eqn:Hr; simpl in H;
                 [| injection H as <-;
                    repeat match type of Hr with
                           | match ?x with _ => _ end = _ => destruct x
                           end; try discriminate;
                    injection Hr as <-; split; discriminate]
             end.
      match type of H with
      | match ?o with _ => _ end = _ => destruct o
      end; [discriminate|]. injection H as <-. split; discriminate. }
    destruct e1; simpl;
      try (intros e [= <-]; eexists; split; [reflexivity | exact Hkind]);
      exfalso; destruct (Hkind msg) as [H1 H2]; congruence.
  - destruct e0; reflexivity.
Qed.

(** X2.  A ticker built by the adapter takes its symbol, timestamp, last,
    bid, ask, high and low from the fields of the same names of the
    exchange's answer, and its volume from the field [vwap]: no other
    field of the answer is read. *)
Theorem adapter_ticker_mapping env self symbol w fields s ts l b a h lo v :
  fetch_ticker env (CCXTAdapter.exchange_id self) symbol (length (trace w))
    = Ok (JObj fields) →
  fields !! "symbol" = Some (JStr s) →
  (fields !! "timestamp" ≫= as_int env) = Some ts →
  (fields !! "last" ≫= as_float env) = Some l →
  (fields !! "bid" ≫= as_float env) = Some b →
  (fields !! "ask" ≫= as_float env) = Some a →
  (fields !! "high" ≫= as_float env) = Some h →
  (fields !! "low" ≫= as_float env) = Some lo →
  (fields !! "vwap" ≫= as_float env) = Some v →
  fst (CCXTAdapter.get_ticker env self symbol w) =
    Ok {| symbol := s; last := l; bid := b; ask := a; high := h; low := lo;
          volume := v; timestamp := ts |}.
Proof.
  intros Hfetch Hs Hts Hl Hb Ha Hh Hlo Hv.
  unfold CCXTAdapter.get_ticker, try_except, bind, call, lift.
  rewrite Hfetch. simpl. rewrite Hs. simpl.
  destruct (fields !! "timestamp") as [vts|]; [|discriminate].
  destruct (fields !! "last") as [vl|]; [|discriminate].
  destruct (fields !! "bid") as [vb|]; [|discriminate].
  destruct (fields !! "ask") as [va|]; [|discriminate].
  destruct (fields !! "high") as [vh|]; [|discriminate].
  destruct (fields !! "low") as [vlo|]; [|discriminate].
  destruct (fields !! "vwap") as [vv|]; [|discriminate].
  simpl in *. unfold Ticker_init. simpl.
  rewrite Hts, Hl, Hb, Ha, Hh, Hlo, Hv. reflexivity.
Qed.

(** The ticker of "demo-exchange" for "BTC/USDT": its volume is the
    reported [vwap]. *)
Lemma adapter_ticker_mapping_witness :
  fst (CCXTAdapter.get_ticker (demo_env None failing_secondary)
         {| CCXTAdapter.exchange_id := "demo-exchange"; CCXTAdapter.handle := 0 |}
         "BTC/USDT" w_init) =
    Ok {| symbol := "BTC/USDT"; last := 50000; bid := 49999; ask := 50001;
          high := 51000; low := 49000; volume := 50500;
          timestamp := 1672531200000 |}.
Proof.
  eapply (adapter_ticker_mapping (demo_env None failing_secondary)
            {| CCXTAdapter.exchange_id := "demo-exchange"; CCXTAdapter.handle := 0 |}
            "BTC/USDT" w_init);
    reflexivity.
Defined.

Lemma Ticker_init_null_volume env v1 v2 v3 v4 v5 v6 v7 :
  Ticker_init env v1 v2 v3 v4 v5 v6 v7 JNull = Raise (ValidationError "Ticker").
Proof.
  unfold Ticker_init.
  destruct (as_str v1), (as_int env v2), (as_float env v3), (as_float env v4),
    (as_float env v5), (as_float env v6), (as_float env v7); reflexivity.
Qed.

(** X3.  When the exchange's answer has no volume-weighted price (the
    field [vwap] is missing or null), the adapter's ticker call fails with
    500, whatever the other fields hold, a traded volume included. *)
Theorem ticker_without_vwap_is_internal_error env self symbol w fields :
  fetch_ticker env (CCXTAdapter.exchange_id self) symbol (length (trace w))
    = Ok (JObj fields) →
  is_Some (fields !! "symbol") → is_Some (fields !! "timestamp") →
  is_Some (fields !! "last") → is_Some (fields !! "bid") →
  is_Some (fields !! "ask") → is_Some (fields !! "high") →
  is_Some (fields !! "low") →
  fields !! "vwap" = None ∨ fields !! "vwap" = Some JNull →
  ∃ cause,
    fst (CCXTAdapter.get_ticker env self symbol w) =
      Raise (HTTPException 500 (TextOf "An unexpected error occurred: " cause))
    ∧ (cause = KeyError (JStr "vwap") ∨ cause = ValidationError "Ticker").
Proof.
  intros Hfetch [v1 H1] [v2 H2] [v3 H3] [v4 H4] [v5 H5] [v6 H6] [v7 H7] Hvwap.
  unfold CCXTAdapter.get_ticker, try_except, bind, call, lift.
  rewrite Hfetch. simpl. rewrite H1, H2, H3, H4, H5, H6, H7. simpl.
  destruct Hvwap as [-> | ->]; simpl.
  - eexists. split; [reflexivity | left; reflexivity].
  - rewrite Ticker_init_null_volume. simpl.
    eexists. split; [reflexivity | right; reflexivity].
Qed.

(** "full-exchange" reports a traded volume and a null [vwap]: its ticker
    cannot be fetched. *)
Lemma ticker_without_vwap_is_internal_error_witness :
  ∃ cause,
    fst (CCXTAdapter.get_ticker full_env
           {| CCXTAdapter.exchange_id := "full-exchange"; CCXTAdapter.handle := 0 |}
           "BTC/USDT" w_init) =
      Raise (HTTPException 500 (TextOf "An unexpected error occurred: " cause))
    ∧ (cause = KeyError (JStr "vwap") ∨ cause = ValidationError "Ticker").
Proof.
  eapply (ticker_without_vwap_is_internal_error full_env
            {| CCXTAdapter.exchange_id := "full-exchange"; CCXTAdapter.handle := 0 |}
            "BTC/USDT" w_init);
    first [reflexivity | eexists; reflexivity | right; reflexivity].
Defined.

(** ** Unknown providers *)

(** X4.  For a provider identifier that is not in [ccxt.exchanges], the
    ticker, historical-data and order-book fetches all fail with the same
    404 naming the identifier, and the world is left as it was: no session
    is opened, no upstream call is made and the fallback is not consulted,
    with or without a credential. *)
Theorem unknown_exchange_rejected env exchange symbol timeframe since limit w :
  exchange ∉ exchanges env →
  DataFetcher.get_ticker_uncached env exchange symbol w =
    (Raise (HTTPException 404 (Text ("Exchange '" +:+ exchange +:+ "' not found."))),
     w)
  ∧ DataFetcher.get_historical_data env exchange symbol timeframe since limit w =
      (Raise (HTTPException 404 (Text ("Exchange '" +:+ exchange +:+ "' not found."))),
       w)
  ∧ DataFetcher.get_order_book env exchange symbol limit w =
      (Raise (HTTPException 404 (Text ("Exchange '" +:+ exchange +:+ "' not found."))),
       w).
Proof.
  intros Hout.
  unfold DataFetcher.get_ticker_uncached, DataFetcher.get_historical_data,
    DataFetcher.get_order_book, bind.
  rewrite (init_unknown env exchange w Hout). repeat split.
Qed.

Lemma unknown_exchange_rejected_witness :
  DataFetcher.get_ticker_uncached (demo_env (Some "test_key") xrp_secondary)
      "nowhere" "XRP/USD" w_init =
    (Raise (HTTPException 404 (Text "Exchange 'nowhere' not found.")), w_init).
Proof.
  refine (proj1 (unknown_exchange_rejected
                   (demo_env (Some "test_key") xrp_secondary)
                   "nowhere" "XRP/USD" "1h" 0 100 w_init _)).
  simpl. intros H. inversion H as [|? ? ? Hrest]; subst. inversion Hrest.
Defined.

(** ** The fallback on its own *)

Lemma once_without_credential env symbol w :
  key_configured (COINMARKETCAP_KEY env) = false →
  _fetch_from_coinmarketcap_once env symbol w =
    (Raise (HTTPException 501 (Text "CoinMarketCap API key not configured.")), w).
Proof.
  intros Hkey. unfold _fetch_from_coinmarketcap_once. rewrite Hkey. reflexivity.
Qed.

(** X5.  Without a credential the fallback never sends a request to the
    secondary provider; it still goes through its three attempts, sleeping
    two seconds twice, and raises [RetryError] around the 501 "not
    configured". *)
Theorem fallback_without_credential env symbol w :
  key_configured (COINMARKETCAP_KEY env) = false →
  _fetch_from_coinmarketcap env symbol w =
    (Raise (RetryError
              (HTTPException 501 (Text "CoinMarketCap API key not configured."))),
     {| now := now w + 4; store := store w;
        trace := trace w ++ [EvSleep 2; EvSleep 2] |}).
Proof.
  intros Hkey. unfold _fetch_from_coinmarketcap, retry.
  change (3 - 1)%nat with 2%nat.
  rewrite attempts_step, (once_without_credential _ _ _ Hkey).
  change (wait_exponential 1 2 10 1) with 2.
  rewrite attempts_step, (once_without_credential _ _ _ Hkey).
  change (wait_exponential 1 2 10 2) with 2.
  rewrite attempts_last, (once_without_credential _ _ _ Hkey).
  unfold slept. simpl. f_equal. f_equal; [lia|].
  rewrite <- app_assoc. reflexivity.
Qed.

Lemma fallback_without_credential_witness :
  _fetch_from_coinmarketcap (demo_env None xrp_secondary) "XRP/USD" w_init =
    (Raise (RetryError
              (HTTPException 501 (Text "CoinMarketCap API key not configured."))),
     {| now := 4; store := ∅; trace := [EvSleep 2; EvSleep 2] |}).
Proof.
  exact (fallback_without_credential (demo_env None xrp_secondary) "XRP/USD"
           w_init eq_refl).
Defined.

(** X6.  An attempt that the secondary provider answers with a status
    outside 2xx fails with an [HTTPException] of that very status, the
    body text in its detail; an attempt whose request fails in transport
    raises the transport error itself, unclassified. *)
Theorem secondary_failure_classification env symbol w base rest :
  key_configured (COINMARKETCAP_KEY env) = true →
  split "/" symbol = base :: rest →
  (∀ response,
     http_get env COINMARKETCAP_API_URL (default "" (COINMARKETCAP_KEY env))
              base (length (trace w)) = Ok response →
     (status_code response <? 200) || (300 <=? status_code response) = true →
     fst (_fetch_from_coinmarketcap_once env symbol w) =
       Raise (HTTPException (status_code response)
                (Text ("Error from CoinMarketCap: " +:+ text response))))
  ∧ (∀ m,
       http_get env COINMARKETCAP_API_URL (default "" (COINMARKETCAP_KEY env))
                base (length (trace w)) = Raise (TransportError m) →
       fst (_fetch_from_coinmarketcap_once env symbol w) =
         Raise (TransportError m)).
Proof.
  intros Hkey Hsplit.
  unfold _fetch_from_coinmarketcap_once. rewrite Hkey, Hsplit. simpl.
  unfold bind, lift, try_except, call. simpl. split.
  - intros response Hget Hstatus. rewrite Hget. simpl.
    unfold raise_for_status.
    assert (Hnot : (200 <=? status_code response)
                   && (status_code response <? 300) = false).
    { apply orb_true_iff in Hstatus as [H|H].
      - apply Z.ltb_lt in H. apply andb_false_iff. left. apply Z.leb_gt, H.
      - apply Z.leb_le in H. apply andb_false_iff. right. apply Z.ltb_ge, H. }
    rewrite Hnot. reflexivity.
  - intros m Hget. rewrite Hget. reflexivity.
Qed.

(** A rate-limited secondary provider: the attempt is classified 429. *)
Lemma secondary_failure_classification_witness :
  fst (_fetch_from_coinmarketcap_once
         (demo_env (Some "test_key")
            (fun _ _ => Ok (error_response 429 "rate limit exceeded")))
         "XRP/USD" w_init) =
    Raise (HTTPException 429 (Text "Error from CoinMarketCap: rate limit exceeded")).
Proof.
  exact (proj1 (secondary_failure_classification
                  (demo_env (Some "test_key")
                     (fun _ _ => Ok (error_response 429 "rate limit exceeded")))
                  "XRP/USD" w_init "XRP" ["USD"] eq_refl eq_refl)
           (error_response 429 "rate limit exceeded") eq_refl eq_refl).
Defined.

Lemma once_now env symbol w :
  now (snd (_fetch_from_coinmarketcap_once env symbol w)) = now w
  ∧ store (snd (_fetch_from_coinmarketcap_once env symbol w)) = store w.
Proof.
  destruct (once_world env symbol w) as (evs & -> & _). split; reflexivity.
Qed.

Lemma attempts_raise {A} wait remaining n (f : M A) w e w' :
  attempts wait remaining n f w = (Raise e, w') → ∃ last, e = RetryError last.
Proof.
  revert n w. induction remaining as [|r IH]; intros n w;
    [rewrite attempts_last | rewrite attempts_step];
    destruct (f w) as [[a|e0] w1]; try discriminate.
  - intros [= <- _]. eauto.
  - apply IH.
Qed.

(** X7.  One run of the fallback sleeps at most 4 seconds in all, sends at
    most three requests to the secondary provider and does not touch the
    cache; when its first attempt returns a ticker, that ticker is returned
    at once, without any sleep. *)
Theorem fallback_latency_bound env symbol w :
  now w ≤ now (snd (_fetch_from_coinmarketcap env symbol w)) ≤ now w + 4
  ∧ store (snd (_fetch_from_coinmarketcap env symbol w)) = store w
  ∧ (secondary_calls (trace (snd (_fetch_from_coinmarketcap env symbol w)))
     ≤ secondary_calls (trace w) + 3)%nat
  ∧ (∀ t w1,
       _fetch_from_coinmarketcap_once env symbol w = (Ok t, w1) →
       _fetch_from_coinmarketcap env symbol w = (Ok t, w1) ∧ now w1 = now w).
Proof.
  split; [|split; [|split]].
  - unfold _fetch_from_coinmarketcap, retry. change (3 - 1)%nat with 2%nat.
    rewrite attempts_step.
    pose proof (once_now env symbol w) as [Hn1 _].
    destruct (_fetch_from_coinmarketcap_once env symbol w) as [[t|e] w1];
      cbn [fst snd] in Hn1 |- *; [lia|].
    change (wait_exponential 1 2 10 1) with 2. rewrite attempts_step.
    pose proof (once_now env symbol (slept 2 w1)) as [Hn2 _].
    destruct (_fetch_from_coinmarketcap_once env symbol (slept 2 w1))
      as [[t|e'] w2]; cbn [fst snd] in Hn2 |- *;
      unfold slept in Hn2; simpl in Hn2; [lia|].
    change (wait_exponential 1 2 10 2) with 2. rewrite attempts_last.
    pose proof (once_now env symbol (slept 2 w2)) as [Hn3 _].
    destruct (_fetch_from_coinmarketcap_once env symbol (slept 2 w2))
      as [[t|e''] w3]; cbn [fst snd] in Hn3 |- *;
      unfold slept in Hn3; simpl in Hn3; lia.
  - destruct (fallback_world env symbol w) as (evs & Hst & _). exact Hst.
  - destruct (attempts_calls (wait_exponential 1 2 10)
                (_fetch_from_coinmarketcap_once env symbol)
                (if key_configured (COINMARKETCAP_KEY env) then 1 else 0)%nat)
      with (remaining := 2%nat) (n := 1%nat) (w := w) as (k & Hk & Hcalls).
    + intros w0. destruct (once_world env symbol w0) as (evs & -> & _ & Hn).
      simpl. unfold secondary_calls in *.
      rewrite List.filter_app, length_app, Hn. reflexivity.
    + unfold _fetch_from_coinmarketcap, retry. change (3 - 1)%nat with 2%nat.
      rewrite Hcalls. destruct (key_configured (COINMARKETCAP_KEY env)); lia.
  - intros t w1 Hfirst. split.
    + unfold _fetch_from_coinmarketcap, retry.
      apply attempts_first_ok, Hfirst.
    + pose proof (once_now env symbol w) as [Hn _]. rewrite Hfirst in Hn.
      exact Hn.
Qed.

(** ** What reaches the caller *)

(** X8.  A ticker fetch that goes to the primary provider fails either
    with an [HTTPException] whose status is 404, 503 or 500, or, when a
    credential is configured and the fallback ran, with a [RetryError]:
    no failure of the fallback reaches the caller as an [HTTPException]. *)
Theorem get_ticker_error_surface env exchange symbol w e :
  fst (DataFetcher.get_ticker_uncached env exchange symbol w) = Raise e →
  (∃ status detail,
     e = HTTPException status detail
     ∧ (status = 404 ∨ status = 503 ∨ status = 500))
  ∨ (key_configured (COINMARKETCAP_KEY env) = true
     ∧ ∃ last, e = RetryError last).
Proof.
  destruct (decide (exchange ∈ exchanges env)) as [Hin|Hout].
  - rewrite (get_ticker_uncached_unfold _ _ _ _ _ _ (init_known env exchange w Hin)).
    match goal with |- context [CCXTAdapter.get_ticker env ?a symbol ?w0] =>
      pose proof (adapter_get_ticker_failure env a symbol w0) as Hfail;
      destruct (CCXTAdapter.get_ticker env a symbol w0) as [[t|e0] w1] end;
      [discriminate|].
    destruct (is_not_found e0 && key_configured (COINMARKETCAP_KEY env)) eqn:Hc;
      simpl.
    + apply andb_true_iff in Hc as [_ Hkey]. intros He. right.
      split; [exact Hkey|].
      destruct (_fetch_from_coinmarketcap env symbol w1) as [r w2] eqn:Hrun.
      simpl in He. subst r. exact (attempts_raise _ _ _ _ _ _ _ Hrun).
    + intros [= <-]. left. apply Hfail. reflexivity.
  - unfold DataFetcher.get_ticker_uncached, bind.
    rewrite (init_unknown env exchange w Hout). simpl.
    intros [= <-]. left. eauto.
Qed.

(** With a rate-limited secondary provider behind an unknown symbol, what
    the caller gets is a [RetryError]. *)
Lemma get_ticker_error_surface_witness :
  (∃ status detail,
     RetryError (HTTPException 429
                   (Text "Error from CoinMarketCap: rate limit exceeded"))
       = HTTPException status detail
     ∧ (status = 404 ∨ status = 503 ∨ status = 500))
  ∨ (key_configured (Some "test_key") = true
     ∧ ∃ last,
         RetryError (HTTPException 429
                       (Text "Error from CoinMarketCap: rate limit exceeded"))
           = RetryError last).
Proof.
  exact (get_ticker_error_surface
           (demo_env (Some "test_key")
              (fun _ _ => Ok (error_response 429 "rate limit exceeded")))
           "demo-exchange" "XRP/USD" w_init _ eq_refl).
Defined.

Lemma adapter_get_order_book_failure env self symbol limit w e :
  fst (CCXTAdapter.get_order_book env self symbol limit w) = Raise e →
  ∃ cause, e = HTTPException 500 (TextOf "Failed to fetch order book: " cause).
Proof.
  unfold CCXTAdapter.get_order_book, try_except, bind, call, lift.
  destruct (fetch_order_book env _ _ _ _) as [data|e0]; simpl.
  - match goal with |- context [rbind ?r ?k] => destruct (rbind r k) end;
      simpl; [discriminate|]. intros [= <-]. eauto.
  - intros [= <-]. eauto.
Qed.

Lemma adapter_get_historical_data_failure
    env self symbol timeframe since limit w e :
  fst (CCXTAdapter.get_historical_data env self symbol timeframe since limit w)
    = Raise e →
  e = HTTPException 501
        (Text ("Exchange '" +:+ CCXTAdapter.exchange_id self
               +:+ "' does not support fetching OHLCV data."))
  ∨ ∃ cause,
      e = HTTPException 500 (TextOf "Failed to fetch historical data: " cause).
Proof.
  unfold CCXTAdapter.get_historical_data.
  destruct (truthy (has_fetchOHLCV env _)); simpl;
    [|intros [= <-]; left; reflexivity].
  unfold try_except, bind, call, lift.
  destruct (fetch_ohlcv env _ _ _ _ _ _) as [data|e0]; simpl.
  - destruct (comprehension (CCXTAdapter.ohlcv_of_item env) data); simpl;
      [discriminate|]. intros [= <-]. eauto.
  - intros [= <-]. eauto.
Qed.

Lemma try_finally_close_fst {A} (m : M A) self w :
  fst (try_finally m (CCXTAdapter.close self) w) = fst (m w).
Proof. unfold try_finally. destruct (m w) as [r w1]. reflexivity. Qed.

Lemma get_order_book_failure_kinds env exchange symbol limit w e :
  fst (DataFetcher.get_order_book env exchange symbol limit w) = Raise e →
  ∃ status detail,
    e = HTTPException status detail ∧ (status = 404 ∨ status = 500).
Proof.
  unfold DataFetcher.get_order_book, bind.
  destruct (decide (exchange ∈ exchanges env)) as [Hin|Hout].
  - rewrite (init_known env exchange w Hin), try_finally_close_fst.
    intros He. apply adapter_get_order_book_failure in He as [cause ->].
    eauto 6.
  - rewrite (init_unknown env exchange w Hout). simpl. intros [= <-]. eauto 6.
Qed.

(** X9.  The historical-data and order-book fetches fail only with an
    [HTTPException]: 404 for an unknown provider, 501 for a provider
    without the capability (historical data only), 500 for anything
    else. *)
Theorem uncached_fetch_error_surface env exchange symbol timeframe since limit w :
  (∀ e,
     fst (DataFetcher.get_historical_data env exchange symbol timeframe since
            limit w) = Raise e →
     ∃ status detail,
       e = HTTPException status detail
       ∧ (status = 404 ∨ status = 501 ∨ status = 500))
  ∧ (∀ e,
       fst (DataFetcher.get_order_book env exchange symbol limit w) = Raise e →
       ∃ status detail,
         e = HTTPException status detail ∧ (status = 404 ∨ status = 500)).
Proof.
  unfold DataFetcher.get_historical_data, DataFetcher.get_order_book, bind.
  destruct (decide (exchange ∈ exchanges env)) as [Hin|Hout].
  - rewrite (init_known env exchange w Hin). split; intros e;
      rewrite try_finally_close_fst.
    + match goal with
      | |- fst (CCXTAdapter.get_historical_data env ?a _ _ _ _ ?w0) = _ → _ =>
          pose proof (adapter_get_historical_data_failure env a symbol
                        timeframe since limit w0) as Haux
      end.
      intros He. destruct (Haux e He) as [-> | [cause ->]]; eauto 6.
    + intros He. apply adapter_get_order_book_failure in He as [cause ->].
      eauto 6.
  - rewrite (init_unknown env exchange w Hout). split; intros e; simpl;
      intros [= <-]; eauto 6.
Qed.

(** ** The routes *)

Lemma cached_fst env ttl key compute w :
  (∃ v, fst (cached env ttl key compute w) = Ok v)
  ∨ fst (cached env ttl key compute w) = fst (compute w).
Proof.
  unfold cached. destruct (cache_get env w key); [left; eauto|].
  destruct (compute w) as [[v0|e] w1]; [left; eauto | right; reflexivity].
Qed.

Lemma fallback_failure_is_RetryError env symbol w e :
  fst (_fetch_from_coinmarketcap env symbol w) = Raise e →
  ∃ last, e = RetryError last.
Proof.
  destruct (_fetch_from_coinmarketcap env symbol w) as [r w'] eqn:Hrun.
  simpl. intros ->. exact (attempts_raise _ _ _ _ _ _ _ Hrun).
Qed.

Lemma get_ticker_uncached_status env exchange symbol w e :
  fst (DataFetcher.get_ticker_uncached env exchange symbol w) = Raise e →
  error_status e = 404 ∨ error_status e = 503 ∨ error_status e = 500.
Proof.
  destruct (decide (exchange ∈ exchanges env)) as [Hin|Hout].
  - rewrite (get_ticker_uncached_unfold _ _ _ _ _ _ (init_known env exchange w Hin)).
    match goal with |- context [CCXTAdapter.get_ticker env ?a symbol ?w0] =>
      pose proof (adapter_get_ticker_failure env a symbol w0) as Hfail;
      destruct (CCXTAdapter.get_ticker env a symbol w0) as [[t|e0] w1] end;
      [discriminate|].
    destruct (is_not_found e0 && key_configured (COINMARKETCAP_KEY env)); simpl.
    + intros H. apply fallback_failure_is_RetryError in H as [last ->].
      simpl. tauto.
    + intros [= <-].
      destruct (Hfail e0 eq_refl) as (status & detail & -> & Hs). simpl. tauto.
  - unfold DataFetcher.get_ticker_uncached, bind.
    rewrite (init_unknown env exchange w Hout). simpl. intros [= <-]. simpl.
    tauto.
Qed.

Lemma get_batch_tickers_total env requests w :
  is_ok (fst (DataFetcher.get_batch_tickers env requests w)) = true.
Proof.
  unfold DataFetcher.get_batch_tickers, bind.
  match goal with |- context [gather ?tasks w] =>
    destruct (gather_total tasks w) as (outcomes & w' & -> & _) end.
  reflexivity.
Qed.

(** X10.  Where a request can fail in the validation of its parameters
    or in its route function, and with what status.  A body of the batch
    route that is not a [BatchTickerRequest] is refused with 422 before any
    fetch, and with a valid body the route function does not raise.  The
    order-book route refuses, with 422 and before any provider is
    contacted, a [depth] that does not validate as an integer or that
    exceeds 100; otherwise it fetches the book with that depth ([25] when
    none is given) and its route function raises only what is answered 404
    or 500.  The route function of the ticker route raises only what is
    answered 404, 503 or 500.  In particular no route passes on a status of
    the secondary provider. *)
Theorem route_statuses env exchange symbol depth body w :
  match Endpoints.BatchTickerRequest_init body with
  | Ok requests =>
      Endpoints.get_batch_tickers env body w
        = DataFetcher.get_batch_tickers env requests w
      ∧ is_ok (fst (Endpoints.get_batch_tickers env body w)) = true
  | Raise e =>
      Endpoints.get_batch_tickers env body w = (Raise e, w)
      ∧ error_status e = 422
  end
  ∧ match Endpoints.query_depth env depth with
    | Ok n =>
        n ≤ 100
        ∧ (depth = None → n = 25)
        ∧ Endpoints.get_order_book env exchange symbol depth w
            = DataFetcher.get_order_book env exchange symbol n w
        ∧ ∀ e,
            fst (Endpoints.get_order_book env exchange symbol depth w) = Raise e →
            error_status e = 404 ∨ error_status e = 500
    | Raise e =>
        Endpoints.get_order_book env exchange symbol depth w = (Raise e, w)
        ∧ error_status e = 422
    end
  ∧ (∀ text n,
       as_int env (JStr text) = Some n → 100 < n →
       Endpoints.get_order_book env exchange symbol (Some text) w
         = (Raise (RequestValidationError "depth"), w))
  ∧ (∀ e,
       fst (Endpoints.get_ticker env exchange symbol w) = Raise e →
       error_status e = 404 ∨ error_status e = 503 ∨ error_status e = 500).
Proof.
  split; [|split; [|split]].
  - unfold Endpoints.get_batch_tickers, bind, lift.
    destruct (Endpoints.BatchTickerRequest_init body) as [requests|e] eqn:Hbody.
    + split; [reflexivity | apply get_batch_tickers_total].
    + split; [reflexivity|].
      unfold Endpoints.BatchTickerRequest_init in Hbody.
      repeat match type of Hbody with
             | match ?x with _ => _ end = _ => destruct x
             end; try discriminate; injection Hbody as <-; reflexivity.
  - unfold Endpoints.get_order_book, bind, lift.
    destruct (Endpoints.query_depth env depth) as [n|e] eqn:Hdepth.
    + split; [|split; [|split]].
      * unfold Endpoints.query_depth in Hdepth.
        destruct depth as [text|]; [|injection Hdepth as <-; lia].
        destruct (as_int env (JStr text)) as [m|]; [|discriminate].
        destruct (m <=? 100) eqn:Hle; [|discriminate].
        injection Hdepth as <-. apply Z.leb_le, Hle.
      * intros ->. injection Hdepth as <-. reflexivity.
      * reflexivity.
      * intros e He.
        destruct (get_order_book_failure_kinds env exchange symbol n w e He)
          as (status & detail & -> & Hs). simpl. tauto.
    + split; [reflexivity|].
      unfold Endpoints.query_depth in Hdepth.
      repeat match type of Hdepth with
             | match ?x with _ => _ end = _ => destruct x
             | (if ?x then _ else _) = _ => destruct x
             end; try discriminate; injection Hdepth as <-; reflexivity.
  - intros text n Hn Hlt. unfold Endpoints.get_order_book, bind, lift.
    unfold Endpoints.query_depth. rewrite Hn.
    destruct (n <=? 100) eqn:Hle; [apply Z.leb_le in Hle; lia | reflexivity].
  - intros e. unfold Endpoints.get_ticker, DataFetcher.get_ticker.
    destruct (cached_fst env 10 (key_builder exchange symbol)
                (DataFetcher.get_ticker_uncached env exchange symbol) w)
      as [[v ->] | ->]; [discriminate|].
    apply get_ticker_uncached_status.
Qed.

(** ** Historical data and order books *)

Lemma comprehension_ok {A B} (f : A → result B) xs ys :
  comprehension f xs = Ok ys → Forall2 (fun x y => f x = Ok y) xs ys.
Proof.
  revert ys. induction xs as [|x xs IH]; simpl; intros ys.
  - intros [= <-]. constructor.
  - destruct (f x) as [y|e] eqn:Hx; simpl; [|discriminate].
    destruct (comprehension f xs) as [ys'|e]; simpl; [|discriminate].
    intros [= <-]. constructor; [exact Hx | apply IH; reflexivity].
Qed.

Lemma comprehension_raise {A B} (f : A → result B) xs x e :
  x ∈ xs → f x = Raise e → is_ok (comprehension f xs) = false.
Proof.
  intros Hin Hx. induction xs as [|x0 xs IH]; [inversion Hin|].
  simpl. apply elem_of_cons in Hin as [<- | Hin].
  - rewrite Hx. reflexivity.
  - destruct (f x0); simpl; [|reflexivity].
    specialize (IH Hin). destruct (comprehension f xs); [discriminate|reflexivity].
Qed.

(** X11.  The candles returned are the rows of the exchange's answer, one
    candle per row and in the same order, whatever [limit] was asked; a
    row is read by position (timestamp, open, high, low, close, volume),
    and a single row with fewer than six columns makes the whole call fail
    with 500: no partial series is returned. *)
Theorem historical_bars_follow_rows env self symbol timeframe since limit w rows :
  truthy (has_fetchOHLCV env (CCXTAdapter.exchange_id self)) = true →
  fetch_ohlcv env (CCXTAdapter.exchange_id self) symbol timeframe since limit
              (length (trace w)) = Ok rows →
  (∀ bars,
     fst (CCXTAdapter.get_historical_data env self symbol timeframe since
            limit w) = Ok bars →
     length bars = length rows
     ∧ Forall2 (fun row bar => CCXTAdapter.ohlcv_of_item env row = Ok bar)
                 rows bars)
  ∧ (∀ ts o h l c v,
       CCXTAdapter.ohlcv_of_item env
         (JArr [JInt ts; JFloat o; JFloat h; JFloat l; JFloat c; JFloat v]) =
       Ok {| ohlcv_timestamp := ts; ohlcv_open := o; ohlcv_high := h;
             ohlcv_low := l; ohlcv_close := c; ohlcv_volume := v |})
  ∧ (∀ columns,
       JArr columns ∈ rows → (length columns < 6)%nat →
       ∃ cause,
         fst (CCXTAdapter.get_historical_data env self symbol timeframe since
                limit w) =
           Raise (HTTPException 500
                    (TextOf "Failed to fetch historical data: " cause))).
Proof.
  intros Hcap Hfetch.
  unfold CCXTAdapter.get_historical_data. rewrite Hcap. simpl.
  unfold try_except, bind, call, lift. rewrite Hfetch. simpl.
  split; [|split].
  - intros bars.
    destruct (comprehension (CCXTAdapter.ohlcv_of_item env) rows) as [bars'|e] eqn:Hc;
      simpl; [|discriminate].
    intros [= <-]. apply comprehension_ok in Hc.
    split; [symmetry; eapply Forall2_length, Hc | exact Hc].
  - reflexivity.
  - intros columns Hin Hshort.
    assert (Hrow : ∃ e, CCXTAdapter.ohlcv_of_item env (JArr columns) = Raise e).
    { unfold CCXTAdapter.ohlcv_of_item, index, list_getitem.
      do 6 (destruct columns as [|? columns];
            [simpl; eauto | simpl in Hshort]).
      lia. }
    destruct Hrow as [e Hrow].
    pose proof (comprehension_raise _ _ _ _ Hin Hrow) as Hfail.
    destruct (comprehension (CCXTAdapter.ohlcv_of_item env) rows); [discriminate|].
    simpl. eauto.
Qed.

(** "full-exchange" returns two rows for a request limited to one candle:
    two candles come back, oldest first. *)
Lemma historical_bars_follow_rows_witness :
  ∃ bars,
    fst (CCXTAdapter.get_historical_data full_env
           {| CCXTAdapter.exchange_id := "full-exchange"; CCXTAdapter.handle := 0 |}
           "BTC/USDT" "1h" 0 1 w_init) = Ok bars
    ∧ length bars = 2%nat.
Proof.
  destruct (fst (CCXTAdapter.get_historical_data full_env
                   {| CCXTAdapter.exchange_id := "full-exchange";
                      CCXTAdapter.handle := 0 |}
                   "BTC/USDT" "1h" 0 1 w_init)) as [bars|e] eqn:H;
    [|vm_compute in H; discriminate].
  exists bars. split; [reflexivity|].
  exact (proj1 (proj1 (historical_bars_follow_rows full_env
                         {| CCXTAdapter.exchange_id := "full-exchange";
                            CCXTAdapter.handle := 0 |}
                         "BTC/USDT" "1h" 0 1 w_init two_candles eq_refl eq_refl)
                  bars H)).
Defined.

(** X12.  The order book returned holds the bids and the asks of the
    exchange's answer as they are, level by level: the adapter neither
    truncates a side to [limit] nor re-orders it. *)
Theorem order_book_levels_pass_through
    env self symbol limit w fields s ts bid_items ask_items bid_levels ask_levels :
  fetch_order_book env (CCXTAdapter.exchange_id self) symbol limit
                   (length (trace w)) = Ok (JObj fields) →
  fields !! "symbol" = Some (JStr s) →
  fields !! "bids" = Some (JArr bid_items) →
  fields !! "asks" = Some (JArr ask_items) →
  fields !! "timestamp" = Some (JInt ts) →
  mapM (as_level env) bid_items = Some bid_levels →
  mapM (as_level env) ask_items = Some ask_levels →
  fst (CCXTAdapter.get_order_book env self symbol limit w) =
    Ok {| bids := bid_levels; asks := ask_levels; book_timestamp := ts;
          book_symbol := s |}
  ∧ length bid_levels = length bid_items
  ∧ length ask_levels = length ask_items
  ∧ Forall2 (fun item level => as_level env item = Some level)
            bid_items bid_levels
  ∧ Forall2 (fun item level => as_level env item = Some level)
            ask_items ask_levels.
Proof.
  intros Hfetch Hs Hb Ha Hts Hbl Hal.
  split.
  - unfold CCXTAdapter.get_order_book, try_except, bind, call, lift.
    rewrite Hfetch. simpl. rewrite Hs, Hb, Ha, Hts. simpl.
    unfold OrderBook_init. simpl. rewrite Hbl, Hal. reflexivity.
  - repeat split.
    + symmetry. eapply length_mapM, Hbl.
    + symmetry. eapply length_mapM, Hal.
    + apply mapM_Some_1, Hbl.
    + apply mapM_Some_1, Hal.
Qed.

(** Asked for a depth of 1, "full-exchange" answers with two levels a
    side; both come back. *)
Lemma order_book_levels_pass_through_witness :
  fst (CCXTAdapter.get_order_book full_env
         {| CCXTAdapter.exchange_id := "full-exchange"; CCXTAdapter.handle := 0 |}
         "BTC/USDT" 1 w_init) =
    Ok {| bids := [(49999, 1); (49998, 2)]%float;
          asks := [(50001, 3); (50002, 4)]%float;
          book_timestamp := 1672531200000; book_symbol := "BTC/USDT" |}.
Proof.
  eapply (proj1 (order_book_levels_pass_through full_env
                   {| CCXTAdapter.exchange_id := "full-exchange";
                      CCXTAdapter.handle := 0 |}
                   "BTC/USDT" 1 w_init _ _ _ _ _ _ _
                   eq_refl eq_refl eq_refl eq_refl eq_refl eq_refl eq_refl)).
Defined.

Lemma try_finally_close_world {A} (m : M A) self w :
  snd (try_finally m (CCXTAdapter.close self) w) = closed self (snd (m w)).
Proof. unfold try_finally, closed. destruct (m w) as [r w1]. reflexivity. Qed.

(** X13.  An order-book fetch on a known provider is one upstream call,
    made with the caller's symbol and limit between the opening and the
    closing of the session; a historical-data fetch likewise, with the
    caller's symbol, timeframe, since and limit, unless the provider lacks
    the capability, in which case no upstream call is made.  Neither reads
    or writes the cache, sleeps or retries. *)
Theorem uncached_fetches_call_upstream_once
    env exchange symbol timeframe since limit w :
  exchange ∈ exchanges env →
  snd (DataFetcher.get_order_book env exchange symbol limit w) =
    {| now := now w; store := store w;
       trace := trace w ++ [EvOpen (length (trace w)) exchange;
                            EvFetchOrderBook (length (trace w)) symbol limit;
                            EvClose (length (trace w))] |}
  ∧ snd (DataFetcher.get_historical_data env exchange symbol timeframe since
           limit w) =
      {| now := now w; store := store w;
         trace := trace w ++
           if truthy (has_fetchOHLCV env exchange)
           then [EvOpen (length (trace w)) exchange;
                 EvFetchOHLCV (length (trace w)) symbol timeframe since limit;
                 EvClose (length (trace w))]
           else [EvOpen (length (trace w)) exchange;
                 EvClose (length (trace w))] |}.
Proof.
  intros Hin. unfold DataFetcher.get_order_book, DataFetcher.get_historical_data,
    bind.
  rewrite (init_known env exchange w Hin), !try_finally_close_world.
  rewrite adapter_get_order_book_world, adapter_get_historical_data_world.
  unfold closed. simpl.
  destruct (truthy (has_fetchOHLCV env exchange)); simpl;
    rewrite <- !app_assoc; split; reflexivity.
Qed.

Lemma uncached_fetches_call_upstream_once_witness :
  snd (DataFetcher.get_order_book full_env "full-exchange" "BTC/USDT" 5 w_init) =
    {| now := 0; store := ∅;
       trace := [EvOpen 0 "full-exchange"; EvFetchOrderBook 0 "BTC/USDT" 5;
                 EvClose 0] |}.
Proof.
  refine (proj1 (uncached_fetches_call_upstream_once full_env "full-exchange"
                   "BTC/USDT" "1h" 0 5 w_init _)).
  simpl. left.
Defined.

(** ** The batch, again *)





Lemma opens_app tr1 tr2 : opens (tr1 ++ tr2) = (opens tr1 + opens tr2)%nat.
Proof. unfold opens. rewrite List.filter_app, length_app. reflexivity. Qed.

Lemma closes_app tr1 tr2 : closes (tr1 ++ tr2) = (closes tr1 + closes tr2)%nat.
Proof. unfold closes. rewrite List.filter_app, length_app. reflexivity. Qed.

Lemma fallback_events_no_session evs :
  Forall (fun ev => is_fallback_event ev = true) evs →
  opens evs = 0%nat ∧ closes evs = 0%nat.
Proof.
  unfold opens, closes. induction 1 as [|ev evs Hev _ IH]; [split; reflexivity|].
  destruct ev; simpl in *; try discriminate; exact IH.
Qed.

(** A ticker fetch, served from the cache or not, closes every session it
    opens, and opens at most one. *)
Lemma get_ticker_sessions env exchange symbol w :
  ∃ evs,
    trace (snd (DataFetcher.get_ticker env exchange symbol w)) = trace w ++ evs
    ∧ opens evs = closes evs ∧ (opens evs ≤ 1)%nat.
Proof.
  assert (Hbody : ∃ evs,
    trace (snd (DataFetcher.get_ticker_uncached env exchange symbol w))
      = trace w ++ evs
    ∧ opens evs = closes evs ∧ (opens evs ≤ 1)%nat).
  { destruct (decide (exchange ∈ exchanges env)) as [Hin|Hout].
    - destruct (get_ticker_uncached_trace env exchange symbol w Hin)
        as (evs & Htr & Hev).
      eexists. split; [exact Htr|].
      destruct (fallback_events_no_session evs Hev) as [Ho Hc].
      change (?a :: ?b :: evs ++ ?c) with ([a; b] ++ evs ++ c).
      rewrite !opens_app, !closes_app, Ho, Hc. unfold opens, closes. simpl. lia.
    - unfold DataFetcher.get_ticker_uncached, bind.
      rewrite (init_unknown env exchange w Hout). exists []. simpl.
      rewrite app_nil_r. repeat split. unfold opens. simpl. lia. }
  unfold DataFetcher.get_ticker, cached.
  assert (Hnone : ∃ evs, trace w = trace w ++ evs
                         ∧ opens evs = closes evs ∧ (opens evs ≤ 1)%nat).
  { exists []. rewrite app_nil_r. repeat split. unfold opens. simpl. lia. }
  destruct (cache_get env w (key_builder exchange symbol)); [exact Hnone|].
  destruct (DataFetcher.get_ticker_uncached env exchange symbol w)
    as [[t|e] w1]; exact Hbody.
Qed.

(** X15.  A batch leaks no session: every session opened while the batch
    runs is closed before the batch returns, and there are at most as many
    of them as there are requests. *)
Theorem batch_sessions_balanced env requests w :
  ∃ evs,
    trace (snd (DataFetcher.get_batch_tickers env requests w)) = trace w ++ evs
    ∧ opens evs = closes evs
    ∧ (opens evs ≤ length requests)%nat.
Proof.
  unfold DataFetcher.get_batch_tickers, bind.
  assert (Hg : ∃ evs,
    trace (snd (gather (map (fun req =>
                               DataFetcher.get_ticker env (fst req) (snd req))
                            requests) w)) = trace w ++ evs
    ∧ opens evs = closes evs ∧ (opens evs ≤ length requests)%nat).
  { revert w. induction requests as [|req rest IH]; intros w; simpl.
    - exists []. rewrite app_nil_r. repeat split. unfold opens. simpl. lia.
    - destruct (get_ticker_sessions env (fst req) (snd req) w)
        as (evs1 & Htr1 & Hbal1 & Hle1).
      destruct (DataFetcher.get_ticker env (fst req) (snd req) w) as [r w1].
      simpl in Htr1.
      destruct (IH w1) as (evs2 & Htr2 & Hbal2 & Hle2).
      destruct (gather _ w1) as [[rs|e] w2]; simpl in Htr2 |- *;
        exists (evs1 ++ evs2);
        rewrite Htr2, Htr1, <- app_assoc, opens_app, closes_app;
        repeat split; lia. }
  destruct (gather _ w) as [[outcomes|e] w1]; exact Hg.
Qed.

(** ** The request sent to the secondary provider *)

Lemma split_at_first_separator sep a b :
  occurs sep a = false → split sep (a +:+ String sep b) = a :: split sep b.
Proof.
  induction a as [|c a IH]; rewrite ?append_nil, ?append_cons; simpl.
  - intros _. rewrite Ascii.eqb_refl. reflexivity.
  - intros H. apply orb_false_iff in H as [Hc Ha]. rewrite Hc, (IH Ha).
    reflexivity.
Qed.

(** X16.  For a symbol "base/rest" the request sent to the secondary
    provider asks for [base], the text before the first "/", with the
    configured credential; the quote currency looked up in the answer is
    the text between the first and the second "/" (all of [rest] when it
    has no "/"), so a settlement suffix such as ":USDT" stays in it. *)
Theorem secondary_request_carries_base env base rest w :
  occurs "/" base = false →
  key_configured (COINMARKETCAP_KEY env) = true →
  trace (snd (_fetch_from_coinmarketcap_once env (base +:+ String "/" rest) w)) =
    trace w ++ [EvHttpGet COINMARKETCAP_API_URL
                          (default "" (COINMARKETCAP_KEY env)) base]
  ∧ list_getitem (split "/" (base +:+ String "/" rest)) 0 = Ok base
  ∧ ∃ quote_code others,
      split "/" rest = quote_code :: others
      ∧ list_getitem (split "/" (base +:+ String "/" rest)) 1 = Ok quote_code
      ∧ (occurs "/" rest = false → quote_code = rest).
Proof.
  intros Hbase Hkey.
  pose proof (split_at_first_separator "/" base rest Hbase) as Hsplit.
  split; [|split].
  - unfold _fetch_from_coinmarketcap_once. rewrite Hkey, Hsplit. simpl.
    unfold bind, lift, try_except, call. simpl.
    destruct (http_get env _ _ _ _) as [response|e]; simpl.
    + match goal with |- context [rbind ?r ?k] => destruct (rbind r k) as [t|e] end;
        simpl; [reflexivity|]. destruct e; reflexivity.
    + destruct e; reflexivity.
  - rewrite Hsplit. reflexivity.
  - destruct (split_nonempty "/" rest) as (quote_code & others & Hrest).
    exists quote_code, others. split; [exact Hrest|]. split.
    + rewrite Hsplit, Hrest. reflexivity.
    + intros Hno. rewrite (split_no_separator "/" rest Hno) in Hrest.
      congruence.
Qed.

(** For the swap symbol "BTC/USDT:USDT", the secondary provider is asked
    for "BTC" and the answer is searched for the quote "USDT:USDT". *)
Lemma secondary_request_carries_base_witness :
  trace (snd (_fetch_from_coinmarketcap_once
                (demo_env (Some "test_key") xrp_secondary)
                "BTC/USDT:USDT" w_init)) =
    [EvHttpGet COINMARKETCAP_API_URL "test_key" "BTC"]
  ∧ list_getitem (split "/" "BTC/USDT:USDT") 1 = Ok "USDT:USDT".
Proof.
  destruct (secondary_request_carries_base
              (demo_env (Some "test_key") xrp_secondary) "BTC" "USDT:USDT"
              w_init eq_refl eq_refl) as (Htr & _ & _).
  split; [exact Htr | reflexivity].
Defined.

(** ** When the fallback is not consulted, and what a failed one costs *)

(** X17.  When the primary provider answers with a ticker, the fetch
    returns that ticker and does nothing but open the session, make the one
    call and close the session: the secondary provider is not contacted and
    nothing sleeps, whether or not a credential is configured. *)
Theorem primary_success_skips_fallback env exchange symbol w adapter w0 t w1 :
  CCXTAdapter.init env exchange w = (Ok adapter, w0) →
  CCXTAdapter.get_ticker env adapter symbol w0 = (Ok t, w1) →
  DataFetcher.get_ticker_uncached env exchange symbol w =
    (Ok t,
     {| now := now w; store := store w;
        trace := trace w ++ [EvOpen (length (trace w)) exchange;
                             EvFetchTicker (length (trace w)) symbol;
                             EvClose (length (trace w))] |}).
Proof.
  intros Hinit Hprimary.
  rewrite (get_ticker_uncached_unfold _ _ _ _ _ _ Hinit), Hprimary.
  pose proof (adapter_get_ticker_world env adapter symbol w0) as Hw1.
  rewrite Hprimary in Hw1. simpl in Hw1. subst w1.
  unfold CCXTAdapter.init in Hinit.
  destruct (bool_decide (exchange ∈ exchanges env)); [|discriminate].
  injection Hinit as <- <-. unfold closed. simpl.
  rewrite <- !app_assoc. reflexivity.
Qed.

Lemma primary_success_skips_fallback_witness :
  DataFetcher.get_ticker_uncached (demo_env (Some "test_key") xrp_secondary)
      "demo-exchange" "BTC/USDT" w_init =
    (Ok {| symbol := "BTC/USDT"; last := 50000; bid := 49999; ask := 50001;
           high := 51000; low := 49000; volume := 50500;
           timestamp := 1672531200000 |},
     {| now := 0; store := ∅;
        trace := [EvOpen 0 "demo-exchange"; EvFetchTicker 0 "BTC/USDT";
                  EvClose 0] |}).
Proof.
  exact (primary_success_skips_fallback
           (demo_env (Some "test_key") xrp_secondary) "demo-exchange"
           "BTC/USDT" w_init _ _ _ _ eq_refl eq_refl).
Defined.

Lemma once_calls env symbol w :
  secondary_calls (trace (snd (_fetch_from_coinmarketcap_once env symbol w))) =
    (secondary_calls (trace w)
     + if key_configured (COINMARKETCAP_KEY env) then 1 else 0)%nat.
Proof.
  destruct (once_world env symbol w) as (evs & -> & _ & Hn). simpl.
  unfold secondary_calls in *. rewrite List.filter_app, length_app, Hn.
  reflexivity.
Qed.

Lemma slept_calls seconds w :
  secondary_calls (trace (slept seconds w)) = secondary_calls (trace w).
Proof.
  unfold slept, secondary_calls. simpl.
  rewrite List.filter_app, length_app. simpl. lia.
Qed.

(** X18.  A run of the fallback that fails has always gone through its
    three attempts: it has slept 4 seconds and, when a credential is
    configured, sent exactly three requests to the secondary provider,
    whatever made the attempts fail. *)
Theorem failed_fallback_cost env symbol w e w' :
  _fetch_from_coinmarketcap env symbol w = (Raise e, w') →
  now w' = now w + 4
  ∧ secondary_calls (trace w') =
      (secondary_calls (trace w)
       + if key_configured (COINMARKETCAP_KEY env) then 3 else 0)%nat.
Proof.
  unfold _fetch_from_coinmarketcap, retry. change (3 - 1)%nat with 2%nat.
  rewrite attempts_step.
  pose proof (once_now env symbol w) as [Hn1 _].
  pose proof (once_calls env symbol w) as Hc1.
  destruct (_fetch_from_coinmarketcap_once env symbol w) as [[t|e1] w1];
    cbn [fst snd] in Hn1, Hc1 |- *; [discriminate|].
  change (wait_exponential 1 2 10 1) with 2. rewrite attempts_step.
  pose proof (once_now env symbol (slept 2 w1)) as [Hn2 _].
  pose proof (once_calls env symbol (slept 2 w1)) as Hc2.
  rewrite slept_calls in Hc2.
  destruct (_fetch_from_coinmarketcap_once env symbol (slept 2 w1))
    as [[t|e2] w2]; cbn [fst snd] in Hn2, Hc2 |- *; [discriminate|].
  change (wait_exponential 1 2 10 2) with 2. rewrite attempts_last.
  pose proof (once_now env symbol (slept 2 w2)) as [Hn3 _].
  pose proof (once_calls env symbol (slept 2 w2)) as Hc3.
  rewrite slept_calls in Hc3.
  destruct (_fetch_from_coinmarketcap_once env symbol (slept 2 w2))
    as [[t|e3] w3]; cbn [fst snd] in Hn3, Hc3 |- *; [discriminate|].
  intros [= _ <-]. unfold slept in Hn2, Hn3. simpl in Hn2, Hn3.
  split; [lia|].
  rewrite Hc3, Hc2, Hc1.
  destruct (key_configured (COINMARKETCAP_KEY env)); lia.
Qed.

(** A symbol the secondary provider can never answer for still costs
    three requests and four seconds. *)
Lemma failed_fallback_cost_witness :
  now (snd (_fetch_from_coinmarketcap (demo_env (Some "test_key") xrp_secondary)
              "XRP" w_init)) = 4
  ∧ secondary_calls
      (trace (snd (_fetch_from_coinmarketcap
                     (demo_env (Some "test_key") xrp_secondary) "XRP" w_init))) =
      3%nat.
Proof.
  destruct (_fetch_from_coinmarketcap (demo_env (Some "test_key") xrp_secondary)
              "XRP" w_init) as [[t|e] w'] eqn:Hrun;
    [vm_compute in Hrun; discriminate|].
  exact (failed_fallback_cost (demo_env (Some "test_key") xrp_secondary)
           "XRP" w_init e w' Hrun).
Defined.
